(** * evcc OCPP central system: connector sessions and the dispatcher

    A shallow embedding of

    - the per-connector handlers of package [ocpp]
      ([timestampValid], [OnStatusNotification], [getSampleKey],
      [OnMeterValues], [OnStartTransaction], [assumeMeterStopped],
      [OnStopTransaction]),
    - the central-system handlers of [charger/ocpp/cs_core.go]
      ([OnDataTransfer], [meterParseMasterplug], [OnStatusNotification]),
    - [Start]'s seeding of the transaction counter
      ([charger/ocpp/instance.go]), and
    - the data-transfer meter's [Update] (package [meter]),

    followed by the properties of the design document that concern them.

    Conventions.  A Go [int]/[int64] is a [Z]; the one place where the
    program does arithmetic on it (the atomic counter) has its 64-bit
    wrap-around written out.  A [time.Time] is the instant it denotes, a
    [Z] (nanoseconds), a [time.Duration] a [Z] saturating at the int64
    bounds.  A Go [float64] is a primitive binary64 [float].  A pointer
    that the code tests against [nil] is an [option].  A run-time panic is
    a result of its own.  Logging has no effect on the state and is left
    out. *)

From Stdlib Require Import ZArith Floats Uint63 Lia Sorted Ascii.
From stdpp Require Import gmap strings list fin_maps pretty.

Open Scope string_scope.
Open Scope Z_scope.

(** ** Go run time *)

Inductive panic : Type :=
| NilDereference
| CloseOfClosedChannel.

Inductive Result (A : Type) : Type :=
| Ok (a : A)
| Panicked (p : panic).

Arguments Ok {A} a.
Arguments Panicked {A} p.

(** A channel that only ever gets closed: [close] on a closed channel
    panics. *)
Inductive chan : Type := Open | Closed.

Definition close (c : chan) : Result chan :=
  match c with
  | Open => Ok Closed
  | Closed => Panicked CloseOfClosedChannel
  end.

Definition MaxInt64 : Z := 2 ^ 63 - 1.
Definition MinInt64 : Z := - 2 ^ 63.

(** Two's complement wrap-around of 64-bit signed arithmetic. *)
Definition wrap64 (z : Z) : Z := (z + 2 ^ 63) mod 2 ^ 64 - 2 ^ 63.

(** ** Package [time] *)

Module time.

Abbreviation Time := Z (only parsing).
Abbreviation Duration := Z (only parsing).

Definition Before (t u : Time) : bool := t <? u.

(** [t.Sub(u)]: the difference, saturated to what a [Duration] holds. *)
Definition Sub (t u : Time) : Duration :=
  Z.max MinInt64 (Z.min MaxInt64 (t - u)).

End time.

(** ** Package [types] and [core] of ocpp-go (the fields of the wire
    structures; [Measurand], [UnitOfMeasure], [ChargePointStatus] and
    [AuthorizationStatus] are Go string types) *)

Module types.

Definition MeasurandPowerActiveImport : string := "Power.Active.Import".
Definition MeasurandCurrentImport : string := "Current.Import".
Definition UnitOfMeasureW : string := "W".
Definition UnitOfMeasureA : string := "A".
Definition AuthorizationStatusAccepted : string := "Accepted".

End types.

Module SampledValue.
Record t : Type := mk {
  Value : string;
  Context : string;
  Format : string;
  Measurand : string;
  Phase : string;
  Location : string;
  Unit : string;
}.
End SampledValue.

Module MeterValue.
Record t : Type := mk {
  Timestamp : option Z;
  SampledValue : list SampledValue.t;
}.
End MeterValue.

Module IdTagInfo.
Record t : Type := mk {
  ExpiryDate : option Z;
  ParentIdTag : string;
  Status : string;
}.
End IdTagInfo.

Module core.

Definition ChargePointStatusCharging : string := "Charging".
Definition ChargePointStatusSuspendedEV : string := "SuspendedEV".
Definition ChargePointStatusSuspendedEVSE : string := "SuspendedEVSE".
Definition DataTransferStatusAccepted : string := "Accepted".

End core.

Module StatusNotificationRequest.
Record t : Type := mk {
  ConnectorId : Z;
  ErrorCode : string;
  Info : string;
  Status : string;
  Timestamp : option Z;
  VendorId : string;
  VendorErrorCode : string;
}.
End StatusNotificationRequest.

Module MeterValuesRequest.
Record t : Type := mk {
  ConnectorId : Z;
  TransactionId : option Z;
  MeterValue : list MeterValue.t;
}.
End MeterValuesRequest.

Module StartTransactionRequest.
Record t : Type := mk {
  ConnectorId : Z;
  IdTag : string;
  MeterStart : Z;
  ReservationId : option Z;
  Timestamp : option Z;
}.
End StartTransactionRequest.

Module StartTransactionConfirmation.
Record t : Type := mk {
  IdTagInfo : option IdTagInfo.t;
  TransactionId : Z;
}.
End StartTransactionConfirmation.

Module StopTransactionRequest.
Record t : Type := mk {
  IdTag : string;
  MeterStop : Z;
  Timestamp : option Z;
  TransactionId : Z;
  Reason : string;
  TransactionData : list MeterValue.t;
}.
End StopTransactionRequest.

Module StopTransactionConfirmation.
Record t : Type := mk {
  IdTagInfo : option IdTagInfo.t;
}.
End StopTransactionConfirmation.

(** [new(core.StatusNotificationConfirmation)] and
    [new(core.MeterValuesConfirmation)]: empty structures. *)
Inductive StatusNotificationConfirmation : Type := mkStatusNotificationConfirmation.
Inductive MeterValuesConfirmation : Type := mkMeterValuesConfirmation.

(** [&types.IdTagInfo{Status: types.AuthorizationStatusAccepted}] *)
Definition accepted : IdTagInfo.t :=
  IdTagInfo.mk None "" types.AuthorizationStatusAccepted.

(** ** The connector

    The fields the handlers use.  [clock] counts the readings taken from
    the connector's clock so far; [remoteStarts] is the list of remote-start
    commands sent to the charger, latest first. *)

Module Connector.
Record t : Type := mk {
  id : Z;
  clock : nat;
  status : option StatusNotificationRequest.t;
  statusC : chan;
  measurements : gmap string SampledValue.t;
  meterUpdated : Z;
  txnId : Z;
  idTag : string;
  remoteIdTag : string;
  remoteStarts : list string;
}.

Definition set_clock (v : nat) (c : t) : t :=
  mk (id c) v (status c) (statusC c) (measurements c) (meterUpdated c)
     (txnId c) (idTag c) (remoteIdTag c) (remoteStarts c).
Definition set_status (v : option StatusNotificationRequest.t) (c : t) : t :=
  mk (id c) (clock c) v (statusC c) (measurements c) (meterUpdated c)
     (txnId c) (idTag c) (remoteIdTag c) (remoteStarts c).
Definition set_statusC (v : chan) (c : t) : t :=
  mk (id c) (clock c) (status c) v (measurements c) (meterUpdated c)
     (txnId c) (idTag c) (remoteIdTag c) (remoteStarts c).
Definition set_measurements (v : gmap string SampledValue.t) (c : t) : t :=
  mk (id c) (clock c) (status c) (statusC c) v (meterUpdated c)
     (txnId c) (idTag c) (remoteIdTag c) (remoteStarts c).
Definition set_meterUpdated (v : Z) (c : t) : t :=
  mk (id c) (clock c) (status c) (statusC c) (measurements c) v
     (txnId c) (idTag c) (remoteIdTag c) (remoteStarts c).
Definition set_txnId (v : Z) (c : t) : t :=
  mk (id c) (clock c) (status c) (statusC c) (measurements c) (meterUpdated c)
     v (idTag c) (remoteIdTag c) (remoteStarts c).
Definition set_idTag (v : string) (c : t) : t :=
  mk (id c) (clock c) (status c) (statusC c) (measurements c) (meterUpdated c)
     (txnId c) v (remoteIdTag c) (remoteStarts c).
Definition set_remoteStarts (v : list string) (c : t) : t :=
  mk (id c) (clock c) (status c) (statusC c) (measurements c) (meterUpdated c)
     (txnId c) (idTag c) (remoteIdTag c) v.
End Connector.

(** ** The central system

    [registration] and [CS] keep the fields the handlers below use: the
    status cache of a charger and the atomic transaction counter. *)

Module registration.
Record t : Type := mk {
  status : gmap Z StatusNotificationRequest.t;
}.
End registration.

Module CS.
Record t : Type := mk {
  regs : gmap string registration.t;
  txnId : Z;
}.
End CS.

(** What a connector handler can reach: its receiver [conn] and the
    package-level [instance]. *)
Record State : Type := mkState {
  instance : CS.t;
  conn : Connector.t;
}.

(** ** The handler monad: state passing, with panics *)

Definition M (A : Type) : Type := State -> Result (A * State).

#[global] Instance M_ret : MRet M := fun A (a : A) s => Ok (a, s).

#[global] Instance M_bind : MBind M := fun A B (f : A -> M B) (m : M A) s =>
  match m s with
  | Ok (a, s') => f a s'
  | Panicked p => Panicked p
  end.

Definition raise {A : Type} (p : panic) : M A := fun _ => Panicked p.

Definition getConn : M Connector.t := fun s => Ok (conn s, s).

Definition modifyConn (f : Connector.t -> Connector.t) : M unit :=
  fun s => Ok (tt, mkState (instance s) (f (conn s))).

(** [instance.txnId.Add(delta)] of [atomic.Int64]: the new value. *)
Definition instance_txnId_Add (delta : Z) : M Z := fun s =>
  let v := wrap64 (CS.txnId (instance s) + delta) in
  Ok (v, mkState (CS.mk (CS.regs (instance s)) v) (conn s)).

(** [for _, x := range l { body }] *)
Fixpoint forEach {A : Type} (l : list A) (body : A -> M unit) : M unit :=
  match l with
  | [] => mret tt
  | x :: l' => _ ← body x; forEach l' body
  end.

(** The state a handler leaves behind, when it returns. *)
Definition exec {A : Type} (m : M A) (s : State) : Result State :=
  match m s with
  | Ok (_, s') => Ok s'
  | Panicked p => Panicked p
  end.

(** ** What package [ocpp] uses and these sources do not contain

    - [now n]: the [n]-th reading of the connector's clock (any readings:
      nothing is assumed of them);
    - [Timeout]: the protocol timeout, a constant of the package;
    - [isWaitingForAuth]: a query on the connector;
    - [sortByAge]: the order in which the batches of one request are
      processed;
    - [TrimSpace]: [strings.TrimSpace]. *)

Class Env : Type := {
  now : nat -> Z;
  Timeout : Z;
  isWaitingForAuth : Connector.t -> bool;
  sortByAge : list MeterValue.t -> list MeterValue.t;
  TrimSpace : string -> string;
}.

(** Modelled from the spec: the helper [getPhaseKey], which the sources use
    and do not contain.  The key of a measurand on phase [n] is the key
    [getSampleKey] derives for a sample of that measurand with phase
    qualifier [Ln]. *)
Definition getPhaseKey (key : string) (phase : Z) : string :=
  key +:+ ".L" +:+ pretty phase.

Definition getSampleKey (s : SampledValue.t) : string :=
  if negb (String.eqb (SampledValue.Phase s) "")
  then SampledValue.Measurand s +:+ "." +:+ SampledValue.Phase s
  else SampledValue.Measurand s.

(** [types.SampledValue{Value: "0", Unit: u}] *)
Definition zeroSample (u : string) : SampledValue.t :=
  SampledValue.mk "0" "" "" "" "" "" u.

(** The handlers of a connector.  They are entered with a request of
    which they read the fields without a test ([request.Timestamp],
    [request.TransactionId], [request.IdTag]): the request is a value. *)

Section Handlers.

Context {E : Env}.

(** [conn.clock.Now()] *)
Definition clock_Now : M Z := fun s =>
  let c := conn s in
  Ok (now (Connector.clock c),
      mkState (instance s) (Connector.set_clock (S (Connector.clock c)) c)).

(** [conn.clock.Since(t)], that is [Now().Sub(t)] *)
Definition clock_Since (t : Z) : M Z :=
  n ← clock_Now; mret (time.Sub n t).

(** Modelled from the spec: the outbound remote-start command, which the
    sources call and do not contain.  It goes to the charger's connection
    and leaves the connector's fields alone; the command is recorded. *)
Definition RemoteStartTransactionRequest (idTag : string) : M unit :=
  modifyConn (fun c =>
    Connector.set_remoteStarts (idTag :: Connector.remoteStarts c) c).

(** [close(conn.statusC)] *)
Definition close_statusC : M unit := fun s =>
  match close (Connector.statusC (conn s)) with
  | Ok ch => modifyConn (Connector.set_statusC ch) s
  | Panicked p => Panicked p
  end.

Definition timestampValid (t : Z) : M bool :=
  since ← clock_Since t;
  if Timeout <? since then mret false
  else
    c ← getConn;
    match Connector.status c with
    | None => raise NilDereference
    | Some held =>
        match StatusNotificationRequest.Timestamp held with
        | None => mret true
        | Some ht => mret (negb (time.Before t ht))
        end
    end.

Definition OnStatusNotification (request : StatusNotificationRequest.t)
  : M StatusNotificationConfirmation :=
  c ← getConn;
  _ ← match Connector.status c with
      | None =>
          _ ← modifyConn (Connector.set_status (Some request));
          close_statusC
      | Some _ =>
          match StatusNotificationRequest.Timestamp request with
          | None => modifyConn (Connector.set_status (Some request))
          | Some t =>
              valid ← timestampValid t;
              if valid : bool
              then modifyConn (Connector.set_status (Some request))
              else mret tt
          end
      end;
  c ← getConn;
  _ ← (if isWaitingForAuth c
       then if negb (String.eqb (Connector.remoteIdTag c) "")
            then RemoteStartTransactionRequest (Connector.remoteIdTag c)
            else mret tt
       else mret tt);
  mret mkStatusNotificationConfirmation.

(** The guard of the transaction recovery in [OnMeterValues]. *)
Definition chargingOrSuspended (st : StatusNotificationRequest.t) : bool :=
  String.eqb (StatusNotificationRequest.Status st) core.ChargePointStatusCharging
  || String.eqb (StatusNotificationRequest.Status st) core.ChargePointStatusSuspendedEV
  || String.eqb (StatusNotificationRequest.Status st) core.ChargePointStatusSuspendedEVSE.

Definition recovers (request : MeterValuesRequest.t) (c : Connector.t) : option Z :=
  match MeterValuesRequest.TransactionId request with
  | Some tid =>
      if (0 <? tid) && (Connector.txnId c =? 0)
         && match Connector.status c with
            | Some st => chargingOrSuspended st
            | None => false
            end
      then Some tid
      else None
  | None => None
  end.

(** The assignments of one sample: the body of the inner loop. *)
Definition storeSample (ts : Z) (sample : SampledValue.t) : M unit :=
  let sample :=
    SampledValue.mk (TrimSpace (SampledValue.Value sample))
      (SampledValue.Context sample) (SampledValue.Format sample)
      (SampledValue.Measurand sample) (SampledValue.Phase sample)
      (SampledValue.Location sample) (SampledValue.Unit sample) in
  let key := getSampleKey sample in
  modifyConn (fun c =>
    Connector.set_meterUpdated ts
      (Connector.set_measurements (<[key := sample]> (Connector.measurements c)) c)).

(** One batch: the body of the outer loop. *)
Definition processMeterValue (meterValue : MeterValue.t) : M unit :=
  ts ← match MeterValue.Timestamp meterValue with
       | None => clock_Now
       | Some t => mret t
       end;
  c ← getConn;
  if negb (time.Before ts (Connector.meterUpdated c))
  then forEach (MeterValue.SampledValue meterValue) (storeSample ts)
  else mret tt.

Definition OnMeterValues (request : MeterValuesRequest.t)
  : M MeterValuesConfirmation :=
  c ← getConn;
  _ ← match recovers request c with
      | Some tid => modifyConn (Connector.set_txnId tid)
      | None => mret tt
      end;
  _ ← forEach (sortByAge (MeterValuesRequest.MeterValue request)) processMeterValue;
  mret mkMeterValuesConfirmation.

Definition OnStartTransaction (request : StartTransactionRequest.t)
  : M StartTransactionConfirmation.t :=
  v ← instance_txnId_Add 1;
  _ ← modifyConn (Connector.set_txnId v);
  _ ← modifyConn (Connector.set_idTag (StartTransactionRequest.IdTag request));
  c ← getConn;
  mret (StartTransactionConfirmation.mk (Some accepted) (Connector.txnId c)).

(** [if _, ok := conn.measurements[key]; ok { conn.measurements[key] = zero }] *)
Definition zeroIfPresent (key u : string) : M unit :=
  c ← getConn;
  match Connector.measurements c !! key with
  | Some _ =>
      modifyConn
        (Connector.set_measurements (<[key := zeroSample u]> (Connector.measurements c)))
  | None => mret tt
  end.

Definition assumeMeterStopped : M unit :=
  t ← clock_Now;
  _ ← modifyConn (Connector.set_meterUpdated t);
  _ ← zeroIfPresent types.MeasurandPowerActiveImport types.UnitOfMeasureW;
  forEach [1; 2; 3] (fun phase =>
    _ ← forEach [""; "-N"] (fun suffix =>
          zeroIfPresent
            (getPhaseKey types.MeasurandPowerActiveImport phase +:+ suffix)
            types.UnitOfMeasureW);
    zeroIfPresent (getPhaseKey types.MeasurandCurrentImport phase)
      types.UnitOfMeasureA).

Definition OnStopTransaction (request : StopTransactionRequest.t)
  : M StopTransactionConfirmation.t :=
  _ ← modifyConn (Connector.set_txnId 0);
  _ ← modifyConn (Connector.set_idTag "");
  let res := StopTransactionConfirmation.mk (Some accepted) in
  _ ← assumeMeterStopped;
  mret res.

End Handlers.

(** [Start]: the fresh central system, its counter seeded with the unix
    time [time.Now().UTC().Unix()] read at that moment. *)
Definition Start (unixNow : Z) : CS.t := CS.mk ∅ unixNow.

(** ** Package [meter]: the data-transfer meter *)

Module meter.

Record OCPPDataTransferMeter : Type := mkMeter {
  id : string;
  current : float;
  voltage : float;
}.

(** The package state: the registered meters by charge point id, and
    [updates], the arguments of every [Update] call so far, latest first. *)
Record t : Type := mk {
  instances : gmap string OCPPDataTransferMeter;
  updates : list (string * float * float);
}.

Definition Update (chargePoint : string) (current voltage : float) (p : t) : t :=
  let i1 :=
    match instances p !! chargePoint with
    | Some m => <[chargePoint := mkMeter (id m) current voltage]> (instances p)
    | None => instances p
    end in
  let i2 :=
    match i1 !! "" with
    | Some m => <["" := mkMeter (id m) current voltage]> i1
    | None => i1
    end in
  mk i2 ((chargePoint, current, voltage) :: updates p).

End meter.

(** ** [cs_core.go] *)

(** A Go [any] holding what [encoding/json] decodes into it. *)
#[warnings="-register-all"]
Inductive any : Type :=
| Nil
| Bool (b : bool)
| Float64 (f : float)
| Str (s : string)
| Slice (l : list any)
| Map (m : gmap string any).

(** A Go [error], by its message. *)
Abbreviation error := string (only parsing).

Module DataTransferRequest.
Record t : Type := mk {
  VendorId : string;
  MessageId : string;
  Data : any;
}.
End DataTransferRequest.

Module DataTransferConfirmation.
Record t : Type := mk {
  Status : string;
  Data : any;
}.
End DataTransferConfirmation.

(** The double quote character. *)
Definition dquote : Ascii.ascii := Ascii.ascii_of_nat 34.

(** The text [t] between two double quotes. *)
Definition quoted (t : string) : string :=
  String dquote (t +:+ String dquote "").

(** What [cs_core.go] uses of [encoding/json]:
    - [Unmarshal_object data]: [json.Unmarshal(data, &obj)] for [obj] a
      [map[string]any]: the error, or the decoded object;
    - [Unmarshal_number data]: [json.Unmarshal(data, &tmp)] for [tmp] a
      [float64], on a text that does not start with a double quote: the
      number, if there was no error. *)
Class Json : Type := {
  Unmarshal_object : string -> error + gmap string any;
  Unmarshal_number : string -> option float;
}.

(** What the dispatcher uses of the application layer:
    - [Heap]: the charge points and what they hold;
    - [ChargepointByID]: the charge point attached under an id, if there
      is one ([err == nil]);
    - [CP_OnStatusNotification]: the charge point's own handler, with what
      it returns (confirmation and error). *)
Class ChargePoints : Type := {
  CP : Type;
  Heap : Type;
  ChargepointByID : string -> CS.t * Heap -> option CP;
  CP_OnStatusNotification :
    CP -> option StatusNotificationRequest.t -> CS.t * Heap ->
    (option StatusNotificationConfirmation * option error) * (CS.t * Heap);
}.

Section Dispatcher.

Context {J : Json} {P : ChargePoints}.

(** [json.Unmarshal(data, &tmp)] for [tmp] a [float64].  A text that starts
    with a double quote is a JSON string or no JSON at all: the decoder
    reports a syntax error or that a string cannot be stored in a float64,
    and leaves [tmp] alone. *)
Definition Unmarshal_float64 (data : string) : option float :=
  match data with
  | String c _ => if Ascii.eqb c dquote then None else Unmarshal_number data
  | EmptyString => Unmarshal_number data
  end.

Definition meterParseMasterplug (data : string) : float * float * option error :=
  match Unmarshal_object data with
  | inl err => (0%float, 0%float, Some err)
  | inr obj =>
      let curVal :=
        match obj !! "current" with
        | Some (Float64 t) => t
        | Some (Str t) =>
            match Unmarshal_float64 (quoted t) with
            | Some tmp => tmp
            | None => 0%float
            end
        | _ => 0%float
        end in
      let voltVal :=
        match obj !! "voltage" with
        | Some (Float64 t) => t
        | Some (Str t) =>
            match Unmarshal_float64 (quoted t) with
            | Some tmp => tmp
            | None => 0%float
            end
        | _ => 0%float
        end in
      if PrimFloat.eqb curVal 0%float && PrimFloat.eqb voltVal 0%float
      then (0%float, 0%float, Some "no values")
      else
        let curVal :=
          if PrimFloat.ltb 100%float curVal
          then PrimFloat.div curVal 1000%float else curVal in
        let voltVal :=
          if PrimFloat.ltb 1000%float voltVal
          then PrimFloat.div voltVal 1000%float else voltVal in
        (curVal, voltVal, None)
  end.

Definition OnDataTransfer (id : string) (request : option DataTransferRequest.t)
    (m : meter.t) : (option DataTransferConfirmation.t * option error) * meter.t :=
  let m' :=
    match request with
    | Some request =>
        if String.eqb (DataTransferRequest.VendorId request) "MasterPlug"
           && String.eqb (DataTransferRequest.MessageId request) "GetCTClampValue"
        then
          let s := match DataTransferRequest.Data request with
                   | Str s => s
                   | _ => ""
                   end in
          match meterParseMasterplug s with
          | (cur, volt, None) => meter.Update id cur volt m
          | (_, _, Some _) => m
          end
        else m
    | None => m
    end in
  ((Some (DataTransferConfirmation.mk core.DataTransferStatusAccepted Nil), None), m').

(** The locked part of [OnStatusNotification]: the status cache. *)
Definition cacheStatus (id : string) (request : option StatusNotificationRequest.t)
    (cs : CS.t) : CS.t :=
  match CS.regs cs !! id, request with
  | Some reg, Some request =>
      let reg' :=
        registration.mk
          (<[StatusNotificationRequest.ConnectorId request := request]>
             (registration.status reg)) in
      CS.mk (<[id := reg']> (CS.regs cs)) (CS.txnId cs)
  | _, _ => cs
  end.

Definition CS_OnStatusNotification (id : string)
    (request : option StatusNotificationRequest.t) (w : CS.t * Heap)
  : (option StatusNotificationConfirmation * option error) * (CS.t * Heap) :=
  let w := (cacheStatus id request (fst w), snd w) in
  match ChargepointByID id w with
  | Some cp => CP_OnStatusNotification cp request w
  | None => ((Some mkStatusNotificationConfirmation, None), w)
  end.

End Dispatcher.

(** The cached status of a connector of a charger. *)
Definition cachedStatus (cs : CS.t) (id : string) (connector : Z)
  : option StatusNotificationRequest.t :=
  reg ← CS.regs cs !! id; registration.status reg !! connector.

(** ** Runs and observations *)

(** The states after each call of a handler [h] on the requests [reqs], in
    order, starting in [s]. *)
Fixpoint run {A B : Type} (h : A -> M B) (reqs : list A) (s : State)
  : Result (list State) :=
  match reqs with
  | [] => Ok []
  | r :: reqs' =>
      match exec (h r) s with
      | Ok s' =>
          match run h reqs' s' with
          | Ok l => Ok (s' :: l)
          | Panicked p => Panicked p
          end
      | Panicked p => Panicked p
      end
  end.

Definition meterUpdatedOf (s : State) : Z := Connector.meterUpdated (conn s).

Definition measurementsOf (s : State) : gmap string SampledValue.t :=
  Connector.measurements (conn s).

(** The timestamp of the held status, when there is a status and it has
    one. *)
Definition heldTimestamp (s : State) : option Z :=
  st ← Connector.status (conn s); StatusNotificationRequest.Timestamp st.

(** The timestamp under which a batch is processed in [s]: its own, or the
    clock's reading when it has none. *)
Definition batchTime {E : Env} (meterValue : MeterValue.t) (s : State) : Z :=
  match MeterValue.Timestamp meterValue with
  | Some t => t
  | None => now (Connector.clock (conn s))
  end.

(** The fields of the state that neither the clock nor a measurement
    touches. *)
Definition sameSession (s s' : State) : Prop :=
  instance s' = instance s
  /\ Connector.id (conn s') = Connector.id (conn s)
  /\ Connector.status (conn s') = Connector.status (conn s)
  /\ Connector.statusC (conn s') = Connector.statusC (conn s)
  /\ Connector.txnId (conn s') = Connector.txnId (conn s)
  /\ Connector.idTag (conn s') = Connector.idTag (conn s)
  /\ Connector.remoteIdTag (conn s') = Connector.remoteIdTag (conn s)
  /\ Connector.remoteStarts (conn s') = Connector.remoteStarts (conn s).

(** A sequence of optional timestamps in which the timestamps that are
    there never decrease; [lo] is the last one seen before. *)
Fixpoint nonDecreasingFrom (lo : option Z) (l : list (option Z)) : Prop :=
  match l with
  | [] => True
  | None :: l' => nonDecreasingFrom lo l'
  | Some t :: l' =>
      match lo with Some a => a <= t | None => True end
      /\ nonDecreasingFrom (Some t) l'
  end.

Definition nonDecreasing (l : list (option Z)) : Prop := nonDecreasingFrom None l.

(** The keys that [assumeMeterStopped] looks at, with the unit it writes,
    in the order of its loops. *)
Definition stoppedMeasurands : list (string * string) :=
  [ ("Power.Active.Import", "W");
    ("Power.Active.Import.L1", "W");
    ("Power.Active.Import.L1-N", "W");
    ("Current.Import.L1", "A");
    ("Power.Active.Import.L2", "W");
    ("Power.Active.Import.L2-N", "W");
    ("Current.Import.L2", "A");
    ("Power.Active.Import.L3", "W");
    ("Power.Active.Import.L3-N", "W");
    ("Current.Import.L3", "A") ].

(** [zeroIfPresent] on the map alone. *)
Definition zeroKey (m : gmap string SampledValue.t) (ku : string * string)
  : gmap string SampledValue.t :=
  match m !! ku.1 with
  | Some _ => <[ku.1 := zeroSample ku.2]> m
  | None => m
  end.

(** The unit of the last entry of [l] under the key [k]. *)
Fixpoint lastUnit (l : list (string * string)) (k : string) : option string :=
  match l with
  | [] => None
  | (k', u) :: l' =>
      match lastUnit l' k with
      | Some u' => Some u'
      | None => if String.eqb k' k then Some u else None
      end
  end.

(** The ids that a sequence of [OnStartTransaction] calls returns, each
    call on a connector of its own choice, the central system threaded
    through. *)
Fixpoint issue {E : Env} (calls : list (Connector.t * StartTransactionRequest.t))
    (cs : CS.t) : Result (list Z) :=
  match calls with
  | [] => Ok []
  | (c, request) :: calls' =>
      match OnStartTransaction request (mkState cs c) with
      | Ok (res, s') =>
          match issue calls' (instance s') with
          | Ok ids => Ok (StartTransactionConfirmation.TransactionId res :: ids)
          | Panicked p => Panicked p
          end
      | Panicked p => Panicked p
      end
  end.

(** ** A concrete environment, to run the handlers in *)

(** Modelled from the spec: the helper [sortByAge], which the sources use
    and do not contain.  The batches in ascending order of their
    timestamps, batches of equal age in the order of the request; a batch
    without a timestamp is not compared. *)
Fixpoint insertByAge (v : MeterValue.t) (l : list MeterValue.t) : list MeterValue.t :=
  match l with
  | [] => [v]
  | w :: l' =>
      match MeterValue.Timestamp v, MeterValue.Timestamp w with
      | Some a, Some b => if a <=? b then v :: l else w :: insertByAge v l'
      | _, _ => v :: l
      end
  end.

Definition sortByAge_ascending (values : list MeterValue.t) : list MeterValue.t :=
  foldr insertByAge [] values.

(** [strings.TrimSpace] on ASCII text. *)
Fixpoint trimLeft (s : string) : string :=
  match s with
  | String a s' => if Ascii.is_space a then trimLeft s' else s
  | EmptyString => EmptyString
  end.

Definition trimAscii (s : string) : string :=
  String.rev (trimLeft (String.rev (trimLeft s))).

(** A clock that starts at 1000 and advances by one with each reading, a
    timeout of 30 s, and a connector that waits for authorization when it
    reports [Preparing] without a transaction. *)
Definition exampleEnv : Env := {|
  now := fun n => 1000 + Z.of_nat n;
  Timeout := 30000000000;
  isWaitingForAuth := fun c =>
    (Connector.txnId c =? 0)
    && match Connector.status c with
       | Some st => String.eqb (StatusNotificationRequest.Status st) "Preparing"
       | None => false
       end;
  sortByAge := sortByAge_ascending;
  TrimSpace := trimAscii;
|}.

(** A connector as it is created: no status, the readiness channel open,
    no measurements, no transaction. *)
Definition freshConnector (id : Z) : Connector.t :=
  Connector.mk id 0 None Open ∅ 0 0 "" "" [].

Definition statusAt (st : string) (ts : option Z) : StatusNotificationRequest.t :=
  StatusNotificationRequest.mk 1 "NoError" "" st ts "" "".

Definition sampleOf (measurand phase value u : string) : SampledValue.t :=
  SampledValue.mk value "" "" measurand phase "" u.

(** What it means that a field of a decoded MasterPlug object parses to
    0: it is missing, or a string (the detour of a string through the
    decoder of a quoted text never yields a number), or the number 0, or
    of a type the parser does not look at. *)
Inductive zeroField (obj : gmap string any) (name : string) : Prop :=
| zero_missing : obj !! name = None -> zeroField obj name
| zero_string (t : string) : obj !! name = Some (Str t) -> zeroField obj name
| zero_number (f : float) :
    obj !! name = Some (Float64 f) -> PrimFloat.eqb f 0%float = true ->
    zeroField obj name
| zero_other (v : any) :
    obj !! name = Some v -> (forall f, v <> Float64 f) -> (forall t, v <> Str t) ->
    zeroField obj name.

(** A decoder for the examples: objects without white space whose members
    are strings without escapes or runs of decimal digits. *)
Fixpoint readString (s : string) : option (string * string) :=
  match s with
  | EmptyString => None
  | String c s' =>
      if Ascii.eqb c dquote then Some (EmptyString, s')
      else '(t, rest) ← readString s'; Some (String c t, rest)
  end.

Fixpoint readDigits (s : string) (acc : option Z) : option Z * string :=
  match s with
  | EmptyString => (acc, s)
  | String c s' =>
      match Ascii.is_nat c with
      | Some d => readDigits s' (Some (10 * default 0 acc + Z.of_nat d))
      | None => (acc, s)
      end
  end.

Definition float_of_Z (z : Z) : float := PrimFloat.of_uint63 (Uint63.of_Z z).

Definition readValue (s : string) : option (any * string) :=
  match s with
  | EmptyString => None
  | String c s' =>
      if Ascii.eqb c dquote
      then '(t, rest) ← readString s'; Some (Str t, rest)
      else match readDigits s None with
           | (Some z, rest) => Some (Float64 (float_of_Z z), rest)
           | (None, _) => None
           end
  end.

Fixpoint readMembers (fuel : nat) (s : string) (acc : gmap string any)
  : option (gmap string any) :=
  match fuel with
  | O => None
  | S fuel' =>
      match s with
      | String c s1 =>
          if Ascii.eqb c dquote
          then
            '(k, s2) ← readString s1;
            match s2 with
            | String ":"%char s3 =>
                '(v, s4) ← readValue s3;
                match s4 with
                | String ","%char s5 => readMembers fuel' s5 (<[k := v]> acc)
                | String "}"%char EmptyString => Some (<[k := v]> acc)
                | _ => None
                end
            | _ => None
            end
          else None
      | EmptyString => None
      end
  end.

Definition decodeFlatObject (s : string) : error + gmap string any :=
  match s with
  | String "{"%char (String "}"%char EmptyString) => inr ∅
  | String "{"%char s' =>
      match readMembers (String.length s) s' ∅ with
      | Some obj => inr obj
      | None => inl "invalid character"
      end
  | _ => inl "unexpected end of JSON input"
  end.

Definition exampleJson : Json := {|
  Unmarshal_object := decodeFlatObject;
  Unmarshal_number := fun s =>
    match readDigits s None with
    | (Some z, EmptyString) => Some (float_of_Z z)
    | _ => None
    end;
|}.

(** The payload of the design document, with the values as strings, and the
    payload of the comment in [OnDataTransfer], with the values as
    numbers. *)
Definition payloadOfStrings : string :=
  "{" +:+ quoted "current" +:+ ":" +:+ quoted "4110" +:+ ","
      +:+ quoted "voltage" +:+ ":" +:+ quoted "249700" +:+ "}".

Definition payloadOfNumbers : string :=
  "{" +:+ quoted "current" +:+ ":4110," +:+ quoted "voltage" +:+ ":249700}".

(** A payload without usable values: [current] is a string, [voltage] is
    missing. *)
Definition payloadWithoutValues : string :=
  "{" +:+ quoted "current" +:+ ":" +:+ quoted "n/a" +:+ ","
      +:+ quoted "power" +:+ ":7}".

Definition masterplug (data : string) : DataTransferRequest.t :=
  DataTransferRequest.mk "MasterPlug" "GetCTClampValue" (Str data).

(** A meter registered for the charger [cp1] and a wildcard meter, both at
    1 A and 230 V. *)
Definition exampleMeters : meter.t :=
  meter.mk
    (<["cp1" := meter.mkMeter "cp1" 1%float 230%float]>
       (<["" := meter.mkMeter "" 1%float 230%float]> ∅))
    [].

(** An application layer in which the chargers listed in the heap have a
    charge point attached, whose handler confirms and changes nothing. *)
Definition exampleChargePoints : ChargePoints := {|
  CP := string;
  Heap := list string;
  ChargepointByID := fun id w => if bool_decide (id ∈ snd w) then Some id else None;
  CP_OnStatusNotification := fun _ _ w =>
    ((Some mkStatusNotificationConfirmation, None), w);
|}.

(** A central system started at unix time 1700000000 with a connector
    that has not reported yet. *)
Definition freshState : State := mkState (Start 1700000000) (freshConnector 1).

(** The same with a connector that reports [Charging] and tracks no
    transaction, as after a restart of the server. *)
Definition chargingState : State :=
  mkState (Start 1700000000)
    (Connector.mk 1 0 (Some (statusAt "Charging" (Some 900))) Closed ∅ 0 0 "" "" []).

(** The same with a connector in a transaction that has reported its
    power, the current on L1 and its energy register, last at 950. *)
Definition meteredState : State :=
  mkState (Start 1700000000)
    (Connector.mk 1 0 (Some (statusAt "Charging" (Some 900))) Closed
       (<["Power.Active.Import" := sampleOf "Power.Active.Import" "" "7360" "W"]>
          (<["Current.Import.L1" := sampleOf "Current.Import" "L1" "16" "A"]>
             (<["Energy.Active.Import.Register" :=
                  sampleOf "Energy.Active.Import.Register" "" "1234" "Wh"]> ∅)))
       950 1700000001 "tag" "" []).

Definition batchAt (ts : Z) (power : string) : MeterValue.t :=
  MeterValue.mk (Some ts) [sampleOf "Power.Active.Import" "" power "W"].

Definition stopRequest : StopTransactionRequest.t :=
  StopTransactionRequest.mk "tag" 1300 (Some 990) 1700000001 "Local" [].

Definition startRequest (idTag : string) : StartTransactionRequest.t :=
  StartTransactionRequest.mk 1 idTag 0 None (Some 990).

(** A central system in which the charger [cp1] has a registration with an
    empty status cache. *)
Definition registeredCS : CS.t :=
  CS.mk (<["cp1" := registration.mk ∅]> ∅) 1700000000.

(** ** More of the code *)

(** *** The connector, across its handlers *)

(** A call of one of the four handlers of a connector. *)
Inductive Call : Type :=
| CallStatusNotification (request : StatusNotificationRequest.t)
| CallMeterValues (request : MeterValuesRequest.t)
| CallStartTransaction (request : StartTransactionRequest.t)
| CallStopTransaction (request : StopTransactionRequest.t).

Definition handle {E : Env} (c : Call) : M unit :=
  match c with
  | CallStatusNotification request => _ ← OnStatusNotification request; mret tt
  | CallMeterValues request => _ ← OnMeterValues request; mret tt
  | CallStartTransaction request => _ ← OnStartTransaction request; mret tt
  | CallStopTransaction request => _ ← OnStopTransaction request; mret tt
  end.

(** The sample as [OnMeterValues] stores it: its value trimmed. *)
Definition normalized {E : Env} (sample : SampledValue.t) : SampledValue.t :=
  SampledValue.mk (TrimSpace (SampledValue.Value sample))
    (SampledValue.Context sample) (SampledValue.Format sample)
    (SampledValue.Measurand sample) (SampledValue.Phase sample)
    (SampledValue.Location sample) (SampledValue.Unit sample).

(** The last sample of a batch that is stored under the key [k], as it is
    stored. *)
Fixpoint lastWithKey {E : Env} (samples : list SampledValue.t) (k : string)
  : option SampledValue.t :=
  match samples with
  | [] => None
  | sample :: samples' =>
      match lastWithKey samples' k with
      | Some x => Some x
      | None =>
          if String.eqb (getSampleKey (normalized sample)) k
          then Some (normalized sample)
          else None
      end
  end.

(** The states [states] follow one another from [s], one for each element
    of [xs], and each step satisfies [step]. *)
Fixpoint chain {A : Type} (step : State -> A -> State -> Prop)
    (s : State) (xs : list A) (states : list State) : Prop :=
  match xs, states with
  | [], [] => True
  | x :: xs', s' :: states' => step s x s' /\ chain step s' xs' states'
  | _, _ => False
  end.

(** The batch [meterValue] takes the measurements of [s] forward in time
    to those of [s']: a batch older than [meterUpdated] changes neither a
    measurement nor [meterUpdated]; a key whose sample differs afterwards
    holds a sample of this batch, the batch is not older than the
    [meterUpdated] it found, and [meterUpdated] is the batch's timestamp
    afterwards; and [meterUpdated] does not go back. *)
Definition movesForward {E : Env}
    (s : State) (meterValue : MeterValue.t) (s' : State) : Prop :=
  (batchTime meterValue s < meterUpdatedOf s ->
   measurementsOf s' = measurementsOf s /\ meterUpdatedOf s' = meterUpdatedOf s)
  /\ (forall key : string,
      measurementsOf s' !! key <> measurementsOf s !! key ->
      meterUpdatedOf s <= batchTime meterValue s
      /\ measurementsOf s' !! key
         = lastWithKey (MeterValue.SampledValue meterValue) key
      /\ meterUpdatedOf s' = batchTime meterValue s)
  /\ meterUpdatedOf s <= meterUpdatedOf s'.

(** One call of [OnMeterValues], from [s] to [s']: the batches of the
    request, in the order in which the handler takes them, are processed
    one after the other from a state [s0] with the measurements,
    [meterUpdated] and the clock of [s]; every one of them moves the
    measurements forward; and [s'] is the state after the last of them. *)
Definition callMovesForward {E : Env}
    (s : State) (request : MeterValuesRequest.t) (s' : State) : Prop :=
  exists (s0 : State) (steps : list State),
    measurementsOf s0 = measurementsOf s
    /\ meterUpdatedOf s0 = meterUpdatedOf s
    /\ Connector.clock (conn s0) = Connector.clock (conn s)
    /\ run processMeterValue (sortByAge (MeterValuesRequest.MeterValue request)) s0
       = Ok steps
    /\ chain movesForward s0 (sortByAge (MeterValuesRequest.MeterValue request)) steps
    /\ s' = default s0 (last steps).

(** *** The readings of the data-transfer meter *)

Module OCPPDataTransferMeter.

(** [CurrentPower]: voltage times current, and no error. *)
Definition CurrentPower (m : meter.OCPPDataTransferMeter) : float * option error :=
  (PrimFloat.mul (meter.voltage m) (meter.current m), None).

Definition Currents (m : meter.OCPPDataTransferMeter)
  : float * float * float * option error :=
  (meter.current m, 0%float, 0%float, None).

Definition Voltages (m : meter.OCPPDataTransferMeter)
  : float * float * float * option error :=
  (meter.voltage m, 0%float, 0%float, None).

Definition Powers (m : meter.OCPPDataTransferMeter)
  : float * float * float * option error :=
  (PrimFloat.mul (meter.voltage m) (meter.current m), 0%float, 0%float, None).

End OCPPDataTransferMeter.

(** The state of the meters after a sequence of [Update] calls, given as
    (charge point, current, voltage), first call first. *)
Definition updateAll (us : list (string * float * float)) (p : meter.t) : meter.t :=
  foldl (fun p u => meter.Update u.1.1 u.1.2 u.2 p) p us.

(** *** The data-transfer meters as objects

    [NewOCPPDataTransferMeter] returns a pointer to the meter it registers,
    and [Update] writes through the pointers of the registry.  [objects]
    is the heap of meters, a pointer is an index into it, [instances] is
    the registry. *)

Module meterStore.

Record t : Type := mk {
  objects : list meter.OCPPDataTransferMeter;
  instances : gmap string nat;
}.

(** [m.current = current; m.voltage = voltage] for the meter at [a] *)
Definition write (a : nat) (current voltage : float)
    (objs : list meter.OCPPDataTransferMeter) : list meter.OCPPDataTransferMeter :=
  alter (fun m => meter.mkMeter (meter.id m) current voltage) a objs.

Section New.

(** [Other]: the configuration handed to the constructor;
    [DecodeOther]: [util.DecodeOther] into the structure with the field
    [ID]: the error, or the id. *)
Variable Other : Type.
Variable DecodeOther : Other -> error + string.

(** The meter (its pointer) or the error, and the package state. *)
Definition NewOCPPDataTransferMeter (other : Other) (st : t) : (error + nat) * t :=
  match DecodeOther other with
  | inl err => (inl err, st)
  | inr cfgID =>
      let m := length (objects st) in
      (inr m,
       mk (objects st ++ [meter.mkMeter cfgID 0%float 0%float])
          (<[cfgID := m]> (instances st)))
  end.

End New.

Definition Update (chargePoint : string) (current voltage : float) (st : t) : t :=
  let objs1 :=
    match instances st !! chargePoint with
    | Some m => write m current voltage (objects st)
    | None => objects st
    end in
  let objs2 :=
    match instances st !! "" with
    | Some m => write m current voltage objs1
    | None => objs1
    end in
  mk objs2 (instances st).

Definition updateAll (us : list (string * float * float)) (st : t) : t :=
  foldl (fun st u => Update u.1.1 u.1.2 u.2 st) st us.

(** The registry with each pointer replaced by the meter it points to. *)
Definition view (st : t) : gmap string meter.OCPPDataTransferMeter :=
  omap (fun m => objects st !! m) (instances st).

(** The registry is well formed: every pointer points to a meter, to the
    meter of that id, and no two ids share a meter. *)
Definition wf (st : t) : Prop :=
  (forall k m, instances st !! k = Some m ->
     exists o, objects st !! m = Some o /\ meter.id o = k)
  /\ (forall k1 k2 m, instances st !! k1 = Some m -> instances st !! k2 = Some m ->
        k1 = k2).

End meterStore.

(** *** The other delegating handlers of [cs_core.go]

    The handlers of the charge point that they delegate to, which the
    sources do not contain, each with what it returns (confirmation and
    error) and the state it leaves. *)

Class ChargePointHandlers {P : ChargePoints} : Type := {
  CP_OnMeterValues :
    CP -> option MeterValuesRequest.t -> CS.t * Heap ->
    (option MeterValuesConfirmation * option error) * (CS.t * Heap);
  CP_OnStartTransaction :
    CP -> option StartTransactionRequest.t -> CS.t * Heap ->
    (option StartTransactionConfirmation.t * option error) * (CS.t * Heap);
  CP_OnStopTransaction :
    CP -> option StopTransactionRequest.t -> CS.t * Heap ->
    (option StopTransactionConfirmation.t * option error) * (CS.t * Heap);
}.

Section Delegation.

Context {P : ChargePoints} {H : ChargePointHandlers}.

Definition CS_OnMeterValues (id : string) (request : option MeterValuesRequest.t)
    (w : CS.t * Heap)
  : (option MeterValuesConfirmation * option error) * (CS.t * Heap) :=
  match ChargepointByID id w with
  | Some cp => CP_OnMeterValues cp request w
  | None => ((Some mkMeterValuesConfirmation, None), w)
  end.

Definition CS_OnStartTransaction (id : string)
    (request : option StartTransactionRequest.t) (w : CS.t * Heap)
  : (option StartTransactionConfirmation.t * option error) * (CS.t * Heap) :=
  match ChargepointByID id w with
  | Some cp => CP_OnStartTransaction cp request w
  | None => ((Some (StartTransactionConfirmation.mk (Some accepted) 0), None), w)
  end.

Definition CS_OnStopTransaction (id : string)
    (request : option StopTransactionRequest.t) (w : CS.t * Heap)
  : (option StopTransactionConfirmation.t * option error) * (CS.t * Heap) :=
  let w :=
    match ChargepointByID id w with
    | Some cp => snd (CP_OnStopTransaction cp request w)
    | None => w
    end in
  ((Some (StopTransactionConfirmation.mk (Some accepted)), None), w).

End Delegation.

(** *** [instance.go]: the package variable [instance]

    The variable is [None] for nil and holds the central system otherwise.
    The network server that [Start] launches and [Stop] halts, and the
    loops in which they wait for it, are not part of the model: the
    functions are what the code does to the variable when it returns.
    [unixNow] is the unix time read by a [Start] that creates.  The
    variable only ever holds an instance made by [Start], whose
    [CentralSystem] is set, so the guard of [Stop] catches nil only. *)

Module ocpp.

(** The instance returned (the error is always nil), and the variable. *)
Definition Start (unixNow : Z) (g : option CS.t) : CS.t * option CS.t :=
  match g with
  | Some inst => (inst, g)
  | None => (Start unixNow, Some (Start unixNow))
  end.

Definition Stop (g : option CS.t) : option CS.t := None.

Definition Restart (unixNow : Z) (g : option CS.t) : option CS.t :=
  snd (Start unixNow (Stop g)).

Definition Instance (unixNow : Z) (g : option CS.t) : CS.t * option CS.t :=
  Start unixNow g.

End ocpp.

(** *** Observations on the added code *)

(** The values of the last [Update] in [us] that reaches the meter
    registered under [k]: one for the charge point [k], or any one when
    [k] is the wildcard. *)
Fixpoint lastUpdateFor (k : string) (us : list (string * float * float))
  : option (float * float) :=
  match us with
  | [] => None
  | (cp, c, v) :: us' =>
      match lastUpdateFor k us' with
      | Some x => Some x
      | None => if String.eqb cp k || String.eqb k "" then Some (c, v) else None
      end
  end.

(** A use of the meter package: a meter is constructed, or the
    dispatcher pushes values. *)
Inductive meterOp (Other : Type) : Type :=
| OpNew (other : Other)
| OpUpdate (chargePoint : string) (current voltage : float).

Arguments OpNew {Other} other.
Arguments OpUpdate {Other} chargePoint current voltage.

Definition applyOp {Other : Type} (DecodeOther : Other -> error + string)
    (st : meterStore.t) (op : meterOp Other) : meterStore.t :=
  match op with
  | OpNew other => snd (meterStore.NewOCPPDataTransferMeter Other DecodeOther other st)
  | OpUpdate cp c v => meterStore.Update cp c v st
  end.

Definition applyOps {Other : Type} (DecodeOther : Other -> error + string)
    (ops : list (meterOp Other)) (st : meterStore.t) : meterStore.t :=
  foldl (applyOp DecodeOther) st ops.

(** The package state at start: no meter. *)
Definition noMeters : meterStore.t := meterStore.mk [] ∅.

(** The number that [meterParseMasterplug] reads from a field: the field
    itself when it is a number, 0 otherwise. *)
Definition readNumber (v : option any) : float :=
  match v with
  | Some (Float64 t) => t
  | _ => 0%float
  end.

(** The heuristic of [meterParseMasterplug] for one value. *)
Definition scaleAbove (threshold x : float) : float :=
  if PrimFloat.ltb threshold x then PrimFloat.div x 1000%float else x.

(** A configuration decoder for the examples: the configuration is the
    id. *)
Definition decodeId (other : string) : error + string := inr other.

(** The handlers of the charge points of the examples: they confirm and
    change nothing; the stop handler reports an error. *)
Definition exampleHandlers : ChargePointHandlers (P := exampleChargePoints) := {|
  CP_OnMeterValues := fun _ _ w => ((Some mkMeterValuesConfirmation, None), w);
  CP_OnStartTransaction := fun _ _ w =>
    ((Some (StartTransactionConfirmation.mk (Some accepted) 7), None), w);
  CP_OnStopTransaction := fun _ _ w => ((None, Some "invalid request"), w);
|}.

(** A connector that has not reported yet and holds the tag of a remote
    start that had to wait. *)
Definition waitingState : State :=
  mkState (Start 1700000000) (Connector.mk 1 0 None Open ∅ 0 0 "" "tag1" []).

(** The calls of one charging session. *)
Definition sessionCalls : list Call :=
  [ CallStatusNotification (statusAt "Preparing" (Some 900));
    CallStartTransaction (startRequest "tag");
    CallStatusNotification (statusAt "Charging" (Some 910));
    CallMeterValues (MeterValuesRequest.mk 1 (Some 1700000001)
                       [batchAt 960 "7000"]);
    CallStopTransaction stopRequest;
    CallMeterValues (MeterValuesRequest.mk 1 (Some 1700000001)
                       [batchAt 970 "6900"]) ].

(** * Properties *)

(** ** Reasoning about handlers *)

Lemma bind_ok {A B : Type} (m : M A) (f : A -> M B) (s s' : State) (a : A) :
  m s = Ok (a, s') -> (m ≫= f) s = f a s'.
Proof. intros H. unfold mbind, M_bind. now rewrite H. Qed.

Lemma bind_step {A B : Type} (m : M A) (f : A -> M B) (s s' : State) (a : A)
    (r : Result (B * State)) :
  m s = Ok (a, s') -> f a s' = r -> (m ≫= f) s = r.
Proof. intros H <-. now apply bind_ok. Qed.

Lemma sameSession_refl (s : State) : sameSession s s.
Proof. unfold sameSession. tauto. Qed.

Lemma sameSession_trans (s1 s2 s3 : State) :
  sameSession s1 s2 -> sameSession s2 s3 -> sameSession s1 s3.
Proof. unfold sameSession. intuition congruence. Qed.

Ltac unfold_monad :=
  unfold mbind, M_bind, mret, M_ret, getConn, modifyConn, raise in *.

Section ConnectorProperties.

Context {E : Env}.

(** *** Meter values *)

Lemma storeSample_spec (ts : Z) (sample : SampledValue.t) (s : State) :
  exists s', storeSample ts sample s = Ok (tt, s')
    /\ sameSession s s'
    /\ Connector.clock (conn s') = Connector.clock (conn s)
    /\ meterUpdatedOf s' = ts.
Proof.
  eexists. split; [reflexivity|].
  unfold sameSession, meterUpdatedOf. simpl. tauto.
Qed.

Lemma forEach_storeSample_spec (ts : Z) (samples : list SampledValue.t) (s : State) :
  exists s', forEach samples (storeSample ts) s = Ok (tt, s')
    /\ sameSession s s'
    /\ Connector.clock (conn s') = Connector.clock (conn s)
    /\ (samples = [] /\ s' = s \/ meterUpdatedOf s' = ts).
Proof.
  revert s. induction samples as [|sample samples IH]; intros s.
  - exists s. simpl. repeat split; auto using sameSession_refl.
  - destruct (storeSample_spec ts sample s) as (s1 & H1 & Hs1 & Hc1 & Hu1).
    destruct (IH s1) as (s2 & H2 & Hs2 & Hc2 & Hu2).
    exists s2. simpl. rewrite (bind_ok _ _ _ _ _ H1). split; [exact H2|].
    split; [eauto using sameSession_trans|].
    split; [congruence|].
    right. destruct Hu2 as [[_ ->]|Hu2]; assumption.
Qed.

Lemma storeSample_eq (ts : Z) (sample : SampledValue.t) (s : State) :
  storeSample ts sample s
  = Ok (tt, mkState (instance s)
              (Connector.set_meterUpdated ts
                 (Connector.set_measurements
                    (<[getSampleKey (normalized sample) := normalized sample]>
                       (Connector.measurements (conn s))) (conn s)))).
Proof. reflexivity. Qed.

Lemma forEach_storeSample_lookup (ts : Z) (samples : list SampledValue.t) (s : State) :
  exists s', forEach samples (storeSample ts) s = Ok (tt, s')
    /\ forall k, measurementsOf s' !! k
                 = match lastWithKey samples k with
                   | Some x => Some x
                   | None => measurementsOf s !! k
                   end.
Proof.
  revert s. induction samples as [|sample samples IH]; intros s.
  - exists s. split; [reflexivity|]. intros k. reflexivity.
  - destruct (IH (mkState (instance s)
              (Connector.set_meterUpdated ts
                 (Connector.set_measurements
                    (<[getSampleKey (normalized sample) := normalized sample]>
                       (Connector.measurements (conn s))) (conn s)))))
      as (s' & H & Hlook).
    exists s'. split.
    + cbn [forEach]. eapply bind_step; [apply storeSample_eq|exact H].
    + intros k. rewrite Hlook. cbn [lastWithKey].
      destruct (lastWithKey samples k); [reflexivity|].
      unfold measurementsOf. simpl.
      destruct (String.eqb_spec (getSampleKey (normalized sample)) k) as [->|Hne].
      * apply lookup_insert_eq.
      * now apply lookup_insert_ne.
Qed.

Lemma processMeterValue_spec (meterValue : MeterValue.t) (s : State) :
  exists s', processMeterValue meterValue s = Ok (tt, s')
    /\ sameSession s s'
    /\ (measurementsOf s' = measurementsOf s /\ meterUpdatedOf s' = meterUpdatedOf s
        \/ meterUpdatedOf s <= batchTime meterValue s
           /\ meterUpdatedOf s' = batchTime meterValue s)
    /\ (batchTime meterValue s < meterUpdatedOf s ->
        measurementsOf s' = measurementsOf s /\ meterUpdatedOf s' = meterUpdatedOf s).
Proof.
  unfold processMeterValue, batchTime.
  set (s0 := match MeterValue.Timestamp meterValue with
             | Some _ => s
             | None => mkState (instance s)
                         (Connector.set_clock (S (Connector.clock (conn s))) (conn s))
             end).
  set (ts := match MeterValue.Timestamp meterValue with
             | Some t => t
             | None => now (Connector.clock (conn s))
             end).
  assert (Hts : match MeterValue.Timestamp meterValue with
                | Some t => mret t
                | None => clock_Now
                end s = Ok (ts, s0)).
  { subst ts s0. destruct (MeterValue.Timestamp meterValue); reflexivity. }
  assert (H0 : sameSession s s0
               /\ measurementsOf s0 = measurementsOf s
               /\ meterUpdatedOf s0 = meterUpdatedOf s).
  { subst s0. destruct (MeterValue.Timestamp meterValue);
      unfold sameSession, measurementsOf, meterUpdatedOf; simpl; tauto. }
  destruct H0 as (Hs0 & Hm0 & Hu0).
  rewrite (bind_ok _ _ _ _ _ Hts).
  unfold mbind at 1, M_bind at 1, getConn.
  fold (meterUpdatedOf s0). rewrite Hu0.
  unfold time.Before. destruct (Z.ltb_spec ts (meterUpdatedOf s)) as [Hlt|Hge]; simpl.
  - exists s0. split; [reflexivity|]. split; [assumption|]. split; [left; tauto|tauto].
  - destruct (forEach_storeSample_spec ts (MeterValue.SampledValue meterValue) s0)
      as (s1 & H1 & Hs1 & _ & Hu1).
    exists s1. split; [assumption|]. split; [eauto using sameSession_trans|].
    split; [|lia].
    destruct Hu1 as [[_ ->]|Hu1]; [left; tauto|right; tauto].
Qed.

Lemma forEach_processMeterValue_spec (batches : list MeterValue.t) (s : State) :
  exists s', forEach batches processMeterValue s = Ok (tt, s')
    /\ sameSession s s'
    /\ meterUpdatedOf s <= meterUpdatedOf s'.
Proof.
  revert s. induction batches as [|b batches IH]; intros s.
  - exists s. simpl. auto using sameSession_refl with lia.
  - destruct (processMeterValue_spec b s) as (s1 & H1 & Hs1 & Hu1 & _).
    destruct (IH s1) as (s2 & H2 & Hs2 & Hu2).
    exists s2. simpl. rewrite (bind_ok _ _ _ _ _ H1).
    split; [exact H2|]. split; [eauto using sameSession_trans|].
    destruct Hu1 as [[_ Hu1]|[? Hu1]]; lia.
Qed.

(** What [OnMeterValues] does to the transaction id, and that it moves
    [meterUpdated] forward only. *)
Lemma OnMeterValues_spec (request : MeterValuesRequest.t) (s : State) :
  exists s', OnMeterValues request s = Ok (mkMeterValuesConfirmation, s')
    /\ instance s' = instance s
    /\ Connector.txnId (conn s')
       = match recovers request (conn s) with
         | Some tid => tid
         | None => Connector.txnId (conn s)
         end
    /\ Connector.status (conn s') = Connector.status (conn s)
    /\ meterUpdatedOf s <= meterUpdatedOf s'.
Proof.
  unfold OnMeterValues.
  unfold mbind at 1, M_bind at 1, getConn.
  set (s0 := match recovers request (conn s) with
             | Some tid => mkState (instance s) (Connector.set_txnId tid (conn s))
             | None => s
             end).
  assert (H0 : match recovers request (conn s) with
               | Some tid => modifyConn (Connector.set_txnId tid)
               | None => mret tt
               end s = Ok (tt, s0)).
  { subst s0. destruct (recovers request (conn s)); reflexivity. }
  rewrite (bind_ok _ _ _ _ _ H0).
  destruct (forEach_processMeterValue_spec
              (sortByAge (MeterValuesRequest.MeterValue request)) s0)
    as (s1 & H1 & (Hi & _ & Hst & _ & Htx & _) & Hu1).
  exists s1. rewrite (bind_ok _ _ _ _ _ H1). split; [reflexivity|].
  subst s0. unfold meterUpdatedOf in *.
  destruct (recovers request (conn s)); simpl in *; auto.
Qed.

Lemma run_OnMeterValues_spec (reqs : list MeterValuesRequest.t) (s : State) :
  exists states, run OnMeterValues reqs s = Ok states
    /\ length states = length reqs
    /\ Sorted Z.le (meterUpdatedOf <$> s :: states).
Proof.
  revert s. induction reqs as [|r reqs IH]; intros s.
  - exists []. simpl. repeat split. repeat constructor.
  - destruct (OnMeterValues_spec r s) as (s1 & H1 & _ & _ & _ & Hu1).
    destruct (IH s1) as (states & H2 & Hl & Hsorted).
    exists (s1 :: states). simpl. unfold exec. rewrite H1, H2.
    split; [reflexivity|]. split; [simpl; congruence|].
    constructor; [exact Hsorted|]. constructor. exact Hu1.
Qed.

(** One batch: the loop body returns, and moves the measurements forward. *)
Lemma processMeterValue_movesForward (meterValue : MeterValue.t) (s : State) :
  exists s', processMeterValue meterValue s = Ok (tt, s')
    /\ movesForward s meterValue s'.
Proof.
  destruct (processMeterValue_spec meterValue s) as (s' & H' & _ & Hcases & Hold).
  exists s'. split; [exact H'|]. unfold movesForward.
  split; [exact Hold|]. split; [|destruct Hcases as [[_ ->]|[? ->]]; lia].
  intros key Hne.
  destruct Hcases as [[Hm _]|[Hle Hu]]; [rewrite Hm in Hne; contradiction|].
  split; [exact Hle|]. split; [|exact Hu].
  revert H' Hne. unfold processMeterValue, batchTime in *.
  set (s0 := match MeterValue.Timestamp meterValue with
             | Some _ => s
             | None => mkState (instance s)
                         (Connector.set_clock (S (Connector.clock (conn s))) (conn s))
             end).
  set (ts := match MeterValue.Timestamp meterValue with
             | Some t => t
             | None => now (Connector.clock (conn s))
             end) in *.
  assert (Hts : match MeterValue.Timestamp meterValue with
                | Some t => mret t
                | None => clock_Now
                end s = Ok (ts, s0)).
  { subst ts s0. destruct (MeterValue.Timestamp meterValue); reflexivity. }
  assert (H0 : measurementsOf s0 = measurementsOf s
               /\ meterUpdatedOf s0 = meterUpdatedOf s).
  { subst s0. destruct (MeterValue.Timestamp meterValue); split; reflexivity. }
  destruct H0 as (Hm0 & Hu0).
  rewrite (bind_ok _ _ _ _ _ Hts).
  unfold mbind at 1, M_bind at 1, getConn.
  fold (meterUpdatedOf s0). rewrite Hu0.
  unfold time.Before. destruct (Z.ltb_spec ts (meterUpdatedOf s)); [lia|].
  cbn [negb].
  destruct (forEach_storeSample_lookup ts (MeterValue.SampledValue meterValue) s0)
    as (s1 & H1 & Hlook).
  rewrite H1. intros [= <-] Hne. rewrite Hlook, Hm0 in Hne |- *.
  destruct (lastWithKey (MeterValue.SampledValue meterValue) key);
    [reflexivity|contradiction].
Qed.

(** The loop over the batches: its states, each step forward, and its
    last state. *)
Lemma forEach_processMeterValue_chain (batches : list MeterValue.t) (s : State) :
  exists steps, run processMeterValue batches s = Ok steps
    /\ chain movesForward s batches steps
    /\ forEach batches processMeterValue s = Ok (tt, default s (last steps)).
Proof.
  revert s. induction batches as [|b batches IH]; intros s.
  - exists []. repeat split.
  - destruct (processMeterValue_movesForward b s) as (s1 & H1 & Hmv).
    destruct (IH s1) as (steps & Hrun & Hchain & Hloop).
    exists (s1 :: steps). cbn [run chain forEach]. unfold exec. rewrite H1, Hrun.
    split; [reflexivity|]. split; [split; assumption|].
    rewrite (bind_ok _ _ _ _ _ H1), Hloop. do 2 f_equal.
    destruct steps as [|s2 steps]; [reflexivity|].
    rewrite !last_cons. now destruct (last steps).
Qed.

(** One call of the handler. *)
Lemma OnMeterValues_movesForward (request : MeterValuesRequest.t) (s : State) :
  exists s', OnMeterValues request s = Ok (mkMeterValuesConfirmation, s')
    /\ callMovesForward s request s'.
Proof.
  unfold OnMeterValues.
  unfold mbind at 1, M_bind at 1, getConn.
  set (s0 := match recovers request (conn s) with
             | Some tid => mkState (instance s) (Connector.set_txnId tid (conn s))
             | None => s
             end).
  assert (H0 : match recovers request (conn s) with
               | Some tid => modifyConn (Connector.set_txnId tid)
               | None => mret tt
               end s = Ok (tt, s0)).
  { subst s0. destruct (recovers request (conn s)); reflexivity. }
  rewrite (bind_ok _ _ _ _ _ H0).
  destruct (forEach_processMeterValue_chain
              (sortByAge (MeterValuesRequest.MeterValue request)) s0)
    as (steps & Hrun & Hchain & Hloop).
  exists (default s0 (last steps)). rewrite (bind_ok _ _ _ _ _ Hloop).
  split; [reflexivity|].
  exists s0, steps.
  repeat split; try assumption;
    subst s0; destruct (recovers request (conn s)); reflexivity.
Qed.

(** C1.  Measurements only move forward in time.  Every sequence of
    [OnMeterValues] calls on a connector returns, and in every call of
    it the state the handler leaves is the one after the last batch of
    the request, the batches taken one after the other in whatever order
    [sortByAge] gives them, where every batch moves the measurements
    forward: a batch older than [meterUpdated] leaves every measurement
    and [meterUpdated] as they are, a key whose sample is overwritten
    holds a sample of a batch whose timestamp is at least the
    [meterUpdated] the batch found, and [meterUpdated] is that timestamp
    afterwards.  So [meterUpdated] never decreases from one call to the
    next. *)
Theorem meter_values_move_forward
    (reqs : list MeterValuesRequest.t) (s : State) :
  exists states, run OnMeterValues reqs s = Ok states
    /\ chain callMovesForward s reqs states
    /\ Sorted Z.le (meterUpdatedOf <$> s :: states).
Proof.
  destruct (run_OnMeterValues_spec reqs s) as (states & Hrun & _ & Hsorted).
  exists states. split; [exact Hrun|]. split; [|exact Hsorted].
  clear Hsorted. revert s states Hrun.
  induction reqs as [|r reqs IH]; intros s states Hrun.
  - cbn in Hrun. injection Hrun as <-. exact I.
  - destruct (OnMeterValues_movesForward r s) as (s1 & H1 & Hcall).
    cbn [run] in Hrun. unfold exec in Hrun. rewrite H1 in Hrun.
    destruct (run OnMeterValues reqs s1) as [l|p] eqn:Hl; [|discriminate].
    injection Hrun as <-. split; [exact Hcall|]. now apply IH.
Qed.

(** *** Status notifications *)

(** The end of [OnStatusNotification]: the pending remote start. *)
Lemma resubmit_spec (s : State) :
  exists s',
    (c ← getConn;
     _ ← (if isWaitingForAuth c
          then if negb (String.eqb (Connector.remoteIdTag c) "")
               then RemoteStartTransactionRequest (Connector.remoteIdTag c)
               else mret tt
          else mret tt);
     mret mkStatusNotificationConfirmation) s
    = Ok (mkStatusNotificationConfirmation, s')
    /\ instance s' = instance s
    /\ Connector.status (conn s') = Connector.status (conn s)
    /\ Connector.statusC (conn s') = Connector.statusC (conn s).
Proof.
  unfold RemoteStartTransactionRequest. unfold_monad. simpl.
  destruct (isWaitingForAuth (conn s)); [|eauto].
  destruct (negb _); simpl; eauto.
Qed.

(** The first status: stored whatever its timestamp, and the readiness
    channel closed. *)
Lemma OnStatusNotification_first (request : StatusNotificationRequest.t) (s : State) :
  Connector.status (conn s) = None ->
  Connector.statusC (conn s) = Open ->
  exists s', OnStatusNotification request s = Ok (mkStatusNotificationConfirmation, s')
    /\ instance s' = instance s
    /\ Connector.status (conn s') = Some request
    /\ Connector.statusC (conn s') = Closed.
Proof.
  intros Hst Hc.
  unfold OnStatusNotification.
  unfold mbind at 1, M_bind at 1, getConn. rewrite Hst.
  set (s1 := mkState (instance s)
               (Connector.set_statusC Closed
                  (Connector.set_status (Some request) (conn s)))).
  assert (H1 : (_ ← modifyConn (Connector.set_status (Some request)); close_statusC) s
               = Ok (tt, s1)).
  { unfold close_statusC. unfold_monad. simpl. rewrite Hc. reflexivity. }
  rewrite (bind_ok _ _ _ _ _ H1).
  destruct (resubmit_spec s1) as (s' & H' & Hi & Hs' & Hc').
  exists s'. split; [exact H'|]. subst s1. simpl in *. auto.
Qed.

(** A later status: the readiness channel is left alone; the report is
    stored when it has no timestamp, or when its timestamp is neither
    expired nor older than a timestamp of the held status; otherwise the
    held status stays. *)
Lemma OnStatusNotification_later
    (request held : StatusNotificationRequest.t) (s : State) :
  Connector.status (conn s) = Some held ->
  exists s', OnStatusNotification request s = Ok (mkStatusNotificationConfirmation, s')
    /\ instance s' = instance s
    /\ Connector.statusC (conn s') = Connector.statusC (conn s)
    /\ match StatusNotificationRequest.Timestamp request with
       | None => Connector.status (conn s') = Some request
       | Some t =>
           if Timeout <? time.Sub (now (Connector.clock (conn s))) t
           then Connector.status (conn s') = Some held
           else match StatusNotificationRequest.Timestamp held with
                | None => Connector.status (conn s') = Some request
                | Some ht =>
                    if t <? ht
                    then Connector.status (conn s') = Some held
                    else Connector.status (conn s') = Some request
                end
       end.
Proof.
  intros Hst.
  unfold OnStatusNotification.
  unfold mbind at 1, M_bind at 1, getConn. rewrite Hst.
  assert (Hstep : exists s1,
    match StatusNotificationRequest.Timestamp request with
    | Some t =>
        valid ← timestampValid t;
        if valid : bool
        then modifyConn (Connector.set_status (Some request))
        else mret tt
    | None => modifyConn (Connector.set_status (Some request))
    end s = Ok (tt, s1)
    /\ instance s1 = instance s
    /\ Connector.statusC (conn s1) = Connector.statusC (conn s)
    /\ match StatusNotificationRequest.Timestamp request with
       | None => Connector.status (conn s1) = Some request
       | Some t =>
           if Timeout <? time.Sub (now (Connector.clock (conn s))) t
           then Connector.status (conn s1) = Some held
           else match StatusNotificationRequest.Timestamp held with
                | None => Connector.status (conn s1) = Some request
                | Some ht =>
                    if t <? ht
                    then Connector.status (conn s1) = Some held
                    else Connector.status (conn s1) = Some request
                end
       end).
  { destruct (StatusNotificationRequest.Timestamp request) as [t|].
    - unfold timestampValid, clock_Since, clock_Now, time.Before.
      unfold_monad. simpl.
      destruct (Timeout <? time.Sub (now (Connector.clock (conn s))) t); simpl.
      + eauto.
      + rewrite Hst.
        destruct (StatusNotificationRequest.Timestamp held) as [ht|]; simpl.
        * destruct (t <? ht); simpl; eauto.
        * eauto.
    - unfold_monad. simpl. eauto. }
  destruct Hstep as (s1 & H1 & Hi1 & Hc1 & Hcase).
  rewrite (bind_ok _ _ _ _ _ H1).
  destruct (resubmit_spec s1) as (s' & H' & Hi & Hs' & Hc').
  exists s'. split; [exact H'|]. rewrite Hs', Hc', Hi. auto.
Qed.

Lemma nonDecreasingFrom_same (lo : option Z) (l : list (option Z)) :
  nonDecreasingFrom lo l -> nonDecreasingFrom lo (lo :: l).
Proof. destruct lo as [a|]; simpl; [split; [lia|assumption]|trivial]. Qed.

(** Later statuses that all carry a timestamp: no call panics, the
    readiness channel is left alone, a status stays held, and the held
    timestamps never decrease. *)
Lemma run_OnStatusNotification_later
    (reqs : list StatusNotificationRequest.t) (held : StatusNotificationRequest.t)
    (s : State) :
  Connector.status (conn s) = Some held ->
  Forall (fun r => is_Some (StatusNotificationRequest.Timestamp r)) reqs ->
  exists states, run OnStatusNotification reqs s = Ok states
    /\ nonDecreasingFrom (StatusNotificationRequest.Timestamp held)
         (heldTimestamp <$> states).
Proof.
  revert held s. induction reqs as [|r reqs IH]; intros held s Hst Hts.
  - exists []. simpl. auto.
  - inversion Hts as [|? ? [t Ht] Hts']; subst.
    destruct (OnStatusNotification_later r held s Hst) as (s1 & H1 & _ & _ & Hcase).
    rewrite Ht in Hcase.
    assert (Hheld : Connector.status (conn s1) = Some held
                    \/ Connector.status (conn s1) = Some r
                       /\ match StatusNotificationRequest.Timestamp held with
                          | Some ht => ht <= t
                          | None => True
                          end).
    { destruct (Timeout <? _); [auto|].
      destruct (StatusNotificationRequest.Timestamp held) as [ht|]; [|auto].
      destruct (Z.ltb_spec t ht); [auto|right; split; [assumption|lia]]. }
    simpl. unfold exec. rewrite H1.
    destruct Hheld as [Hs1|[Hs1 Hle]].
    + destruct (IH held s1 Hs1 Hts') as (states & H2 & Hnd).
      exists (s1 :: states). rewrite H2. split; [reflexivity|].
      rewrite fmap_cons. unfold heldTimestamp at 1. rewrite Hs1. simpl.
      apply nonDecreasingFrom_same. exact Hnd.
    + destruct (IH r s1 Hs1 Hts') as (states & H2 & Hnd).
      exists (s1 :: states). rewrite H2. split; [reflexivity|].
      rewrite fmap_cons. unfold heldTimestamp at 1. rewrite Hs1. simpl.
      rewrite Ht in *. simpl. split; assumption.
Qed.

(** C2, as amended.  On a connector without a status, the first
    [OnStatusNotification] call is accepted and stored whatever its
    timestamp; if every later call carries a timestamp, no call panics and
    the timestamp of the held status never decreases over the whole
    sequence. *)
Theorem status_timestamps_nondecreasing
    (request : StatusNotificationRequest.t)
    (reqs : list StatusNotificationRequest.t) (s : State) :
  Connector.status (conn s) = None ->
  Connector.statusC (conn s) = Open ->
  Forall (fun r => is_Some (StatusNotificationRequest.Timestamp r)) reqs ->
  exists s1 states,
    run OnStatusNotification (request :: reqs) s = Ok (s1 :: states)
    /\ Connector.status (conn s1) = Some request
    /\ nonDecreasing (heldTimestamp <$> s1 :: states).
Proof.
  intros Hst Hc Hts.
  destruct (OnStatusNotification_first request s Hst Hc) as (s1 & H1 & _ & Hs1 & _).
  destruct (run_OnStatusNotification_later reqs request s1 Hs1 Hts)
    as (states & H2 & Hnd).
  exists s1, states. simpl. unfold exec. rewrite H1, H2.
  split; [reflexivity|]. split; [exact Hs1|].
  unfold nonDecreasing. unfold heldTimestamp at 1. rewrite Hs1. simpl.
  destruct (StatusNotificationRequest.Timestamp request); simpl; auto.
Qed.

(** Any later statuses: no call panics, and every call finds a status and
    the readiness channel as the call before left them. *)
Lemma run_OnStatusNotification_ready
    (reqs : list StatusNotificationRequest.t) (s : State) :
  is_Some (Connector.status (conn s)) ->
  exists states, run OnStatusNotification reqs s = Ok states
    /\ Forall (fun s' => Connector.statusC (conn s') = Connector.statusC (conn s)
                         /\ is_Some (Connector.status (conn s'))) states.
Proof.
  revert s. induction reqs as [|r reqs IH]; intros s [held Hst].
  - exists []. simpl. auto.
  - destruct (OnStatusNotification_later r held s Hst) as (s1 & H1 & _ & Hc1 & Hcase).
    assert (Hs1 : is_Some (Connector.status (conn s1))).
    { destruct (StatusNotificationRequest.Timestamp r); [|eauto].
      destruct (Timeout <? _); [eauto|].
      destruct (StatusNotificationRequest.Timestamp held); [|eauto].
      destruct (_ <? _); eauto. }
    destruct (IH s1 Hs1) as (states & H2 & Hall).
    exists (s1 :: states). simpl. unfold exec. rewrite H1, H2.
    split; [reflexivity|]. constructor; [auto|].
    eapply Forall_impl; [exact Hall|]. simpl. intros s' [? ?]. split; congruence.
Qed.

(** C9.  The readiness channel is closed exactly once.  On a connector
    without a status and with its channel open, every sequence of
    [OnStatusNotification] calls returns without a panic (a second close
    would panic); the first call closes the channel, and every later call
    finds a status, so takes a branch without the close, and leaves the
    channel closed. *)
Theorem readiness_signal_fires_once
    (request : StatusNotificationRequest.t)
    (reqs : list StatusNotificationRequest.t) (s : State) :
  Connector.status (conn s) = None ->
  Connector.statusC (conn s) = Open ->
  exists s1 states,
    run OnStatusNotification (request :: reqs) s = Ok (s1 :: states)
    /\ Forall (fun s' => Connector.statusC (conn s') = Closed
                         /\ is_Some (Connector.status (conn s'))) (s1 :: states).
Proof.
  intros Hst Hc.
  destruct (OnStatusNotification_first request s Hst Hc) as (s1 & H1 & _ & Hs1 & Hc1).
  destruct (run_OnStatusNotification_ready reqs s1) as (states & H2 & Hall); [eauto|].
  exists s1, states. simpl. unfold exec. rewrite H1, H2.
  split; [reflexivity|]. constructor; [eauto|].
  eapply Forall_impl; [exact Hall|]. simpl. intros s' [? ?]. split; congruence.
Qed.

(** *** Transaction recovery *)

Lemma chargingOrSuspended_iff (st : StatusNotificationRequest.t) :
  chargingOrSuspended st = true <->
  StatusNotificationRequest.Status st = "Charging"
  \/ StatusNotificationRequest.Status st = "SuspendedEV"
  \/ StatusNotificationRequest.Status st = "SuspendedEVSE".
Proof.
  unfold chargingOrSuspended, core.ChargePointStatusCharging,
    core.ChargePointStatusSuspendedEV, core.ChargePointStatusSuspendedEVSE.
  rewrite !orb_true_iff, !String.eqb_eq. tauto.
Qed.

Lemma recovers_Some (request : MeterValuesRequest.t) (c : Connector.t) (tid : Z) :
  recovers request c = Some tid <->
  MeterValuesRequest.TransactionId request = Some tid
  /\ 0 < tid
  /\ Connector.txnId c = 0
  /\ exists st, Connector.status c = Some st /\ chargingOrSuspended st = true.
Proof.
  unfold recovers.
  destruct (MeterValuesRequest.TransactionId request) as [tid'|]; [|split; [discriminate|tauto || intros [? _]; discriminate]].
  destruct (Z.ltb_spec 0 tid'); destruct (Z.eqb_spec (Connector.txnId c) 0);
    destruct (Connector.status c) as [st|]; simpl;
    try destruct (chargingOrSuspended st) eqn:Hcs; simpl;
    split; try discriminate;
    try (intros [= <-]; eauto 10);
    try (intros ([= <-] & ? & ? & st' & Hst' & Hcs'); reflexivity || (exfalso; try lia; congruence)).
Qed.

(** C6.  [OnMeterValues] returns and leaves the central system, and with
    it the transaction counter, as it was.  If the request carries a
    transaction id greater than 0, the connector tracks no transaction and
    its last status is [Charging], [SuspendedEV] or [SuspendedEVSE], the
    connector's transaction id becomes the one of the request.  If the
    request carries no transaction id or one that is not greater than 0, or
    a transaction is tracked, or there is no status, or the status is none
    of the three, the connector's transaction id stays what it was. *)
Theorem meter_values_recover_transaction
    (request : MeterValuesRequest.t) (s : State) :
  exists s', OnMeterValues request s = Ok (mkMeterValuesConfirmation, s')
    /\ instance s' = instance s
    /\ (forall tid st,
        MeterValuesRequest.TransactionId request = Some tid ->
        0 < tid ->
        Connector.txnId (conn s) = 0 ->
        Connector.status (conn s) = Some st ->
        StatusNotificationRequest.Status st = "Charging"
        \/ StatusNotificationRequest.Status st = "SuspendedEV"
        \/ StatusNotificationRequest.Status st = "SuspendedEVSE" ->
        Connector.txnId (conn s') = tid)
    /\ (MeterValuesRequest.TransactionId request = None
        \/ (exists tid, MeterValuesRequest.TransactionId request = Some tid /\ tid <= 0)
        \/ Connector.txnId (conn s) <> 0
        \/ Connector.status (conn s) = None
        \/ (exists st, Connector.status (conn s) = Some st
            /\ StatusNotificationRequest.Status st <> "Charging"
            /\ StatusNotificationRequest.Status st <> "SuspendedEV"
            /\ StatusNotificationRequest.Status st <> "SuspendedEVSE") ->
        Connector.txnId (conn s') = Connector.txnId (conn s)).
Proof.
  destruct (OnMeterValues_spec request s) as (s' & H & Hi & Htx & _ & _).
  exists s'. split; [exact H|]. split; [exact Hi|]. rewrite Htx. split.
  - intros tid st Ht Hpos Hz Hst Hstatus.
    assert (Hr : recovers request (conn s) = Some tid).
    { apply recovers_Some. repeat split; try assumption.
      exists st. split; [assumption|]. now apply chargingOrSuspended_iff. }
    now rewrite Hr.
  - intros Hnot.
    destruct (recovers request (conn s)) as [tid|] eqn:Hr; [|reflexivity].
    apply recovers_Some in Hr as (Ht & Hpos & Hz & st & Hst & Hcs).
    apply chargingOrSuspended_iff in Hcs.
    exfalso.
    destruct Hnot as [Hn|[(tid' & Hn & Hle)|[Hn|[Hn|(st' & Hn & H1 & H2 & H3)]]]];
      try congruence.
    + rewrite Ht in Hn. injection Hn as <-. lia.
    + rewrite Hst in Hn. injection Hn as <-. tauto.
Qed.

(** *** Stop transaction *)

Lemma zeroIfPresent_spec (key u : string) (s : State) :
  exists s', zeroIfPresent key u s = Ok (tt, s')
    /\ sameSession s s'
    /\ Connector.clock (conn s') = Connector.clock (conn s)
    /\ meterUpdatedOf s' = meterUpdatedOf s
    /\ measurementsOf s' = zeroKey (measurementsOf s) (key, u).
Proof.
  unfold zeroIfPresent, zeroKey, measurementsOf, meterUpdatedOf, sameSession.
  unfold_monad. simpl.
  destruct (Connector.measurements (conn s) !! key); eexists; (split; [reflexivity|]);
    simpl; tauto.
Qed.

(** One round of the phase loop of [assumeMeterStopped]. *)
Lemma phase_spec (phase : Z) (s : State) :
  exists s',
    (_ ← forEach [""; "-N"] (fun suffix =>
           zeroIfPresent
             (getPhaseKey types.MeasurandPowerActiveImport phase +:+ suffix)
             types.UnitOfMeasureW);
     zeroIfPresent (getPhaseKey types.MeasurandCurrentImport phase)
       types.UnitOfMeasureA) s = Ok (tt, s')
    /\ sameSession s s'
    /\ Connector.clock (conn s') = Connector.clock (conn s)
    /\ meterUpdatedOf s' = meterUpdatedOf s
    /\ measurementsOf s'
       = foldl zeroKey (measurementsOf s)
           [ (getPhaseKey types.MeasurandPowerActiveImport phase +:+ "", types.UnitOfMeasureW);
             (getPhaseKey types.MeasurandPowerActiveImport phase +:+ "-N", types.UnitOfMeasureW);
             (getPhaseKey types.MeasurandCurrentImport phase, types.UnitOfMeasureA) ].
Proof.
  destruct (zeroIfPresent_spec
              (getPhaseKey types.MeasurandPowerActiveImport phase +:+ "")
              types.UnitOfMeasureW s) as (s1 & H1 & Hs1 & Hc1 & Hu1 & Hm1).
  destruct (zeroIfPresent_spec
              (getPhaseKey types.MeasurandPowerActiveImport phase +:+ "-N")
              types.UnitOfMeasureW s1) as (s2 & H2 & Hs2 & Hc2 & Hu2 & Hm2).
  destruct (zeroIfPresent_spec
              (getPhaseKey types.MeasurandCurrentImport phase)
              types.UnitOfMeasureA s2) as (s3 & H3 & Hs3 & Hc3 & Hu3 & Hm3).
  exists s3. split.
  - eapply bind_step; [|exact H3].
    cbn [forEach]. eapply bind_step; [exact H1|].
    eapply bind_step; [exact H2|]. reflexivity.
  - split; [eauto using sameSession_trans|].
    split; [congruence|]. split; [congruence|].
    simpl. rewrite Hm3, Hm2, Hm1. reflexivity.
Qed.

Lemma assumeMeterStopped_spec (s : State) :
  exists s', assumeMeterStopped s = Ok (tt, s')
    /\ sameSession s s'
    /\ meterUpdatedOf s' = now (Connector.clock (conn s))
    /\ measurementsOf s' = foldl zeroKey (measurementsOf s) stoppedMeasurands.
Proof.
  unfold assumeMeterStopped.
  set (s0 := mkState (instance s)
               (Connector.set_meterUpdated (now (Connector.clock (conn s)))
                  (Connector.set_clock (S (Connector.clock (conn s))) (conn s)))).
  assert (Hs0 : sameSession s s0) by (unfold sameSession; simpl; tauto).
  destruct (zeroIfPresent_spec types.MeasurandPowerActiveImport types.UnitOfMeasureW s0)
    as (sP & HP & HsP & _ & HuP & HmP).
  destruct (phase_spec 1 sP) as (s1 & H1 & Hs1 & _ & Hu1 & Hm1).
  destruct (phase_spec 2 s1) as (s2 & H2 & Hs2 & _ & Hu2 & Hm2).
  destruct (phase_spec 3 s2) as (s3 & H3 & Hs3 & _ & Hu3 & Hm3).
  exists s3. split.
  - eapply bind_step; [reflexivity|].
    eapply bind_step; [reflexivity|]. fold s0.
    eapply bind_step; [exact HP|].
    cbn [forEach].
    eapply bind_step; [exact H1|].
    eapply bind_step; [exact H2|].
    eapply bind_step; [exact H3|]. reflexivity.
  - split; [eauto 6 using sameSession_trans|].
    split; [rewrite Hu3, Hu2, Hu1, HuP; reflexivity|].
    rewrite Hm3, Hm2, Hm1, HmP. reflexivity.
Qed.

Lemma zeroKey_lookup (m : gmap string SampledValue.t) (k' u k : string) :
  zeroKey m (k', u) !! k
  = match m !! k with
    | None => None
    | Some v => Some (if String.eqb k' k then zeroSample u else v)
    end.
Proof.
  unfold zeroKey. simpl. destruct (String.eqb_spec k' k) as [->|Hne].
  - destruct (m !! k) eqn:Hk; [apply lookup_insert_eq|exact Hk].
  - destruct (m !! k') eqn:Hk'; [rewrite lookup_insert_ne by exact Hne|];
      destruct (m !! k); reflexivity.
Qed.

Lemma foldl_zeroKey_lookup (l : list (string * string))
    (m : gmap string SampledValue.t) (k : string) :
  foldl zeroKey m l !! k
  = match m !! k with
    | None => None
    | Some v => Some match lastUnit l k with
                     | Some u => zeroSample u
                     | None => v
                     end
    end.
Proof.
  revert m. induction l as [|[k' u] l IH]; intros m; simpl.
  - destruct (m !! k); reflexivity.
  - rewrite IH, zeroKey_lookup.
    destruct (m !! k); [|reflexivity].
    destruct (lastUnit l k); [reflexivity|].
    destruct (String.eqb k' k); reflexivity.
Qed.

Lemma foldl_zeroKey_idemp (l : list (string * string))
    (m : gmap string SampledValue.t) :
  foldl zeroKey (foldl zeroKey m l) l = foldl zeroKey m l.
Proof.
  apply map_eq. intros k. rewrite !foldl_zeroKey_lookup.
  destruct (m !! k); [|reflexivity].
  destruct (lastUnit l k); reflexivity.
Qed.

Lemma lastUnit_None (l : list (string * string)) (k : string) :
  k ∉ l.*1 -> lastUnit l k = None.
Proof.
  induction l as [|[k' u] l IH]; simpl; [reflexivity|].
  rewrite not_elem_of_cons. intros [Hne Hnin]. rewrite (IH Hnin).
  destruct (String.eqb_spec k' k); [congruence|reflexivity].
Qed.

Lemma lastUnit_stoppedMeasurands (k u : string) :
  (k, u) ∈ stoppedMeasurands -> lastUnit stoppedMeasurands k = Some u.
Proof.
  unfold stoppedMeasurands. rewrite !elem_of_cons, elem_of_nil.
  intros H. repeat (destruct H as [[= -> ->]|H]; [reflexivity|]). contradiction.
Qed.

Lemma OnStopTransaction_spec (request : StopTransactionRequest.t) (s : State) :
  exists s',
    OnStopTransaction request s
    = Ok (StopTransactionConfirmation.mk (Some accepted), s')
    /\ instance s' = instance s
    /\ Connector.txnId (conn s') = 0
    /\ Connector.idTag (conn s') = ""
    /\ Connector.status (conn s') = Connector.status (conn s)
    /\ meterUpdatedOf s' = now (Connector.clock (conn s))
    /\ measurementsOf s' = foldl zeroKey (measurementsOf s) stoppedMeasurands.
Proof.
  unfold OnStopTransaction.
  set (s0 := mkState (instance s)
               (Connector.set_idTag "" (Connector.set_txnId 0 (conn s)))).
  destruct (assumeMeterStopped_spec s0)
    as (s' & H & (Hi & _ & Hst & _ & Htx & Htag & _) & Hu & Hm).
  exists s'. split.
  - eapply bind_step; [reflexivity|].
    eapply bind_step; [reflexivity|]. fold s0.
    eapply bind_step; [exact H|]. reflexivity.
  - rewrite Hi, Htx, Htag, Hst, Hu, Hm. subst s0. simpl. tauto.
Qed.

(** C4.  [OnStopTransaction] returns a confirmation with authorization
    status [Accepted] and leaves the connector with transaction id 0 and an
    empty id tag.  Of the ten keys (active power of the charger, of the
    phases L1 to L3 and of L1-N to L3-N, current of the phases L1 to L3),
    each that held a sample holds the value 0 with its unit (W for power,
    A for current); a key that held no sample holds none; every other
    key holds what it held. *)
Theorem stop_transaction_zeroes_meter
    (request : StopTransactionRequest.t) (s : State) :
  exists res s',
    OnStopTransaction request s = Ok (res, s')
    /\ IdTagInfo.Status <$> StopTransactionConfirmation.IdTagInfo res = Some "Accepted"
    /\ Connector.txnId (conn s') = 0
    /\ Connector.idTag (conn s') = ""
    /\ (forall key u, (key, u) ∈ stoppedMeasurands ->
          is_Some (measurementsOf s !! key) ->
          measurementsOf s' !! key = Some (SampledValue.mk "0" "" "" "" "" "" u))
    /\ (forall key, measurementsOf s !! key = None ->
          measurementsOf s' !! key = None)
    /\ (forall key, key ∉ stoppedMeasurands.*1 ->
          measurementsOf s' !! key = measurementsOf s !! key).
Proof.
  destruct (OnStopTransaction_spec request s) as (s' & H & _ & Htx & Htag & _ & _ & Hm).
  exists (StopTransactionConfirmation.mk (Some accepted)), s'.
  split; [exact H|]. split; [reflexivity|]. split; [exact Htx|]. split; [exact Htag|].
  rewrite Hm. repeat split.
  - intros key u Hin [v Hv]. rewrite foldl_zeroKey_lookup, Hv.
    now rewrite (lastUnit_stoppedMeasurands key u Hin).
  - intros key Hv. now rewrite foldl_zeroKey_lookup, Hv.
  - intros key Hnin. rewrite foldl_zeroKey_lookup, (lastUnit_None _ _ Hnin).
    destruct (measurementsOf s !! key); reflexivity.
Qed.

(** C8.  A second [OnStopTransaction] right after a first returns the same
    [Accepted] confirmation and leaves the transaction id (0), the id tag
    (empty) and the whole map of measurements as the first call left
    them. *)
Theorem stop_transaction_twice
    (request1 request2 : StopTransactionRequest.t) (s : State) :
  exists res s1 s2,
    OnStopTransaction request1 s = Ok (res, s1)
    /\ OnStopTransaction request2 s1 = Ok (res, s2)
    /\ IdTagInfo.Status <$> StopTransactionConfirmation.IdTagInfo res = Some "Accepted"
    /\ Connector.txnId (conn s1) = 0 /\ Connector.txnId (conn s2) = 0
    /\ Connector.idTag (conn s1) = "" /\ Connector.idTag (conn s2) = ""
    /\ measurementsOf s2 = measurementsOf s1.
Proof.
  destruct (OnStopTransaction_spec request1 s)
    as (s1 & H1 & _ & Htx1 & Htag1 & _ & _ & Hm1).
  destruct (OnStopTransaction_spec request2 s1)
    as (s2 & H2 & _ & Htx2 & Htag2 & _ & _ & Hm2).
  exists (StopTransactionConfirmation.mk (Some accepted)), s1, s2.
  repeat (split; [assumption || reflexivity|]).
  rewrite Hm2, Hm1. apply foldl_zeroKey_idemp.
Qed.

(** *** Start transaction *)

Lemma wrap64_id (z : Z) : MinInt64 <= z <= MaxInt64 -> wrap64 z = z.
Proof.
  unfold wrap64, MinInt64, MaxInt64. intros H.
  rewrite Z.mod_small by lia. lia.
Qed.

Lemma OnStartTransaction_spec (request : StartTransactionRequest.t) (s : State) :
  OnStartTransaction request s
  = Ok (StartTransactionConfirmation.mk (Some accepted)
          (wrap64 (CS.txnId (instance s) + 1)),
        mkState (CS.mk (CS.regs (instance s)) (wrap64 (CS.txnId (instance s) + 1)))
          (Connector.set_idTag (StartTransactionRequest.IdTag request)
             (Connector.set_txnId (wrap64 (CS.txnId (instance s) + 1)) (conn s)))).
Proof. reflexivity. Qed.

(** The ids of a sequence of calls, while the counter does not wrap: each
    is above the counter it found, and above all the ids before it. *)
Lemma issue_spec (calls : list (Connector.t * StartTransactionRequest.t)) (cs : CS.t) :
  MinInt64 <= CS.txnId cs ->
  CS.txnId cs + Z.of_nat (length calls) <= MaxInt64 ->
  exists ids, issue calls cs = Ok ids
    /\ length ids = length calls
    /\ Forall (fun i => CS.txnId cs < i) ids
    /\ StronglySorted Z.lt ids.
Proof.
  revert cs. induction calls as [|[c request] calls IH]; intros cs Hlo Hhi.
  - exists []. simpl. repeat split; constructor.
  - simpl length in Hhi.
    assert (Hw : wrap64 (CS.txnId cs + 1) = CS.txnId cs + 1)
      by (apply wrap64_id; lia).
    cbn [issue]. rewrite OnStartTransaction_spec.
    cbn [instance conn CS.txnId CS.regs StartTransactionConfirmation.TransactionId].
    rewrite Hw.
    destruct (IH (CS.mk (CS.regs cs) (CS.txnId cs + 1))) as (ids & H & Hl & Hgt & Hsorted);
      simpl; [lia..|].
    rewrite H. exists (CS.txnId cs + 1 :: ids).
    split; [reflexivity|]. split; [simpl; congruence|]. simpl in Hgt. split.
    + constructor; [lia|]. eapply Forall_impl; [exact Hgt|]. simpl. lia.
    + constructor; assumption.
Qed.

(** C5.  Transaction ids only grow, within one instance of the central
    system.  After [Start] has created the instance and seeded its
    counter with the unix time, the ids that a sequence of
    [OnStartTransaction] calls on that instance returns, on whichever
    connectors, are each strictly greater than the seed and than every id
    returned before, as long as the 64-bit counter has not run out
    ([unixNow] plus the number of calls stays within int64). *)
Theorem transaction_ids_increase
    (unixNow : Z) (calls : list (Connector.t * StartTransactionRequest.t)) :
  MinInt64 <= unixNow ->
  unixNow + Z.of_nat (length calls) <= MaxInt64 ->
  exists ids, issue calls (Start unixNow) = Ok ids
    /\ length ids = length calls
    /\ Forall (fun i => unixNow < i) ids
    /\ StronglySorted Z.lt ids.
Proof. intros Hlo Hhi. apply (issue_spec calls (Start unixNow)); assumption. Qed.

End ConnectorProperties.


(** ** The dispatcher *)

Section DispatcherProperties.

Context {J : Json} {P : ChargePoints}.

(** A quoted text is never decoded into a [float64]. *)
Lemma Unmarshal_float64_quoted (t : string) : Unmarshal_float64 (quoted t) = None.
Proof. reflexivity. Qed.

(** What [meterParseMasterplug] reads from a field that parses to 0. *)
Lemma zeroField_reads_zero (obj : gmap string any) (name : string) :
  zeroField obj name ->
  PrimFloat.eqb
    match obj !! name with
    | Some (Float64 t) => t
    | Some (Str t) =>
        match Unmarshal_float64 (quoted t) with
        | Some tmp => tmp
        | None => 0%float
        end
    | _ => 0%float
    end 0%float = true.
Proof.
  intros [Hm|t Ht|f Hf Hz|v Hv Hnf Hns].
  - rewrite Hm. reflexivity.
  - rewrite Ht, Unmarshal_float64_quoted. reflexivity.
  - rewrite Hf. exact Hz.
  - rewrite Hv. destruct v as [|b|f|t|l|o]; try reflexivity.
    now destruct (Hnf f).
Qed.

Lemma meterParseMasterplug_no_values (data : string) (obj : gmap string any) :
  Unmarshal_object data = inr obj ->
  zeroField obj "current" ->
  zeroField obj "voltage" ->
  meterParseMasterplug data = (0%float, 0%float, Some "no values").
Proof.
  intros Hobj Hc Hv. unfold meterParseMasterplug. rewrite Hobj.
  rewrite (zeroField_reads_zero obj "current" Hc).
  rewrite (zeroField_reads_zero obj "voltage" Hv). reflexivity.
Qed.

(** C10.  A MasterPlug/GetCTClampValue data transfer whose payload decodes
    to an object in which [current] and [voltage] both parse to 0 (a field
    is missing, is a string, is the number 0, or is of another type): the
    parser returns the error [no values], the meters and the list of
    [Update] calls are what they were, and the confirmation says
    [Accepted], with no error. *)
Theorem data_transfer_without_values
    (id : string) (request : DataTransferRequest.t) (data : string)
    (obj : gmap string any) (m : meter.t) :
  DataTransferRequest.VendorId request = "MasterPlug" ->
  DataTransferRequest.MessageId request = "GetCTClampValue" ->
  DataTransferRequest.Data request = Str data ->
  Unmarshal_object data = inr obj ->
  zeroField obj "current" ->
  zeroField obj "voltage" ->
  meterParseMasterplug data = (0%float, 0%float, Some "no values")
  /\ OnDataTransfer id (Some request) m
     = ((Some (DataTransferConfirmation.mk "Accepted" Nil), None), m).
Proof.
  intros Hvendor Hmsg Hdata Hobj Hc Hv.
  pose proof (meterParseMasterplug_no_values data obj Hobj Hc Hv) as Hparse.
  split; [exact Hparse|].
  unfold OnDataTransfer. rewrite Hvendor, Hmsg, Hdata, Hparse. reflexivity.
Qed.

(** The status cache after the locked part, for a charger with a
    registration. *)
Lemma cacheStatus_cached (id : string) (request : StatusNotificationRequest.t)
    (cs : CS.t) :
  is_Some (CS.regs cs !! id) ->
  cachedStatus (cacheStatus id (Some request) cs) id
    (StatusNotificationRequest.ConnectorId request) = Some request.
Proof.
  intros [reg Hreg]. unfold cachedStatus, cacheStatus. rewrite Hreg. simpl.
  rewrite lookup_insert_eq. simpl. apply lookup_insert_eq.
Qed.

(** A charger without a registration has no cache to store into. *)
Lemma cacheStatus_unregistered (id : string)
    (request : option StatusNotificationRequest.t) (cs : CS.t) :
  CS.regs cs !! id = None -> cacheStatus id request cs = cs.
Proof. intros Hreg. unfold cacheStatus. now rewrite Hreg. Qed.

(** C3, as amended.  For a status notification with a request, from a
    charger that has a registration: the request is in the status cache
    under the charger's id and the connector number in the state [w1] in
    which the charge point is looked up and, if there is one, its handler
    is called; if there is none, [w1] is the state the dispatcher leaves,
    with the default confirmation. *)
Theorem status_cached_before_delegation
    (id : string) (request : StatusNotificationRequest.t) (w : CS.t * Heap) :
  is_Some (CS.regs (fst w) !! id) ->
  exists w1 : CS.t * Heap,
    cachedStatus (fst w1) id (StatusNotificationRequest.ConnectorId request)
      = Some request
    /\ snd w1 = snd w
    /\ CS_OnStatusNotification id (Some request) w
       = match ChargepointByID id w1 with
         | Some cp => CP_OnStatusNotification cp (Some request) w1
         | None => ((Some mkStatusNotificationConfirmation, None), w1)
         end.
Proof.
  intros Hreg.
  exists (cacheStatus id (Some request) (fst w), snd w).
  split; [now apply cacheStatus_cached|]. split; reflexivity.
Qed.

End DispatcherProperties.

(** * The properties at work *)

(** An unordered request: the batch of 940 is older than the last update
    (950) and is dropped, the batches of 960 and 980 are stored in that
    order. *)
Example unordered_batches :
  exists s',
    exec (OnMeterValues (E := exampleEnv)
            (MeterValuesRequest.mk 1 None
               [batchAt 980 " 11000 "; batchAt 940 "3000"; batchAt 960 "7000"]))
      meteredState = Ok s'
    /\ meterUpdatedOf s' = 980
    /\ SampledValue.Value <$> measurementsOf s' !! "Power.Active.Import" = Some "11000".
Proof. eexists. split; [reflexivity|]. split; reflexivity. Qed.

(** A batch of 940 alone, against the last update of 950: the handler
    leaves the sample of the power and [meterUpdated] as they were. *)
Example stale_batch_is_dropped :
  exists s',
    exec (OnMeterValues (E := exampleEnv)
            (MeterValuesRequest.mk 1 None [batchAt 940 "3000"]))
      meteredState = Ok s'
    /\ meterUpdatedOf s' = meterUpdatedOf meteredState
    /\ measurementsOf s' !! "Power.Active.Import"
       = measurementsOf meteredState !! "Power.Active.Import".
Proof. eexists. split; [reflexivity|]. split; reflexivity. Qed.

Lemma meter_values_move_forward_witness :
  exists states,
    run (OnMeterValues (E := exampleEnv))
      [MeterValuesRequest.mk 1 None
         [batchAt 980 " 11000 "; batchAt 940 "3000"; batchAt 960 "7000"];
       MeterValuesRequest.mk 1 None [batchAt 970 "5000"]]
      meteredState = Ok states
    /\ chain (callMovesForward (E := exampleEnv)) meteredState
         [MeterValuesRequest.mk 1 None
            [batchAt 980 " 11000 "; batchAt 940 "3000"; batchAt 960 "7000"];
          MeterValuesRequest.mk 1 None [batchAt 970 "5000"]]
         states
    /\ Sorted Z.le (meterUpdatedOf <$> meteredState :: states).
Proof.
  exact (meter_values_move_forward (E := exampleEnv)
           [MeterValuesRequest.mk 1 None
              [batchAt 980 " 11000 "; batchAt 940 "3000"; batchAt 960 "7000"];
            MeterValuesRequest.mk 1 None [batchAt 970 "5000"]]
           meteredState).
Defined.

(** The claim C2 as it stands fails: a status without a timestamp is always
    accepted, and after it a status older than an earlier one is accepted.
    The held timestamps are 900, none, 800. *)
Lemma status_timestamp_can_decrease :
  exists states,
    run (OnStatusNotification (E := exampleEnv))
      [statusAt "Available" (Some 900); statusAt "Preparing" None;
       statusAt "Available" (Some 800)] freshState = Ok states
    /\ heldTimestamp <$> states = [Some 900; None; Some 800]
    /\ ~ nonDecreasing (heldTimestamp <$> states).
Proof.
  eexists. split; [reflexivity|]. split; [reflexivity|].
  unfold nonDecreasing. simpl. lia.
Qed.

Lemma status_timestamps_nondecreasing_witness :
  Connector.status (conn freshState) = None
  /\ Connector.statusC (conn freshState) = Open
  /\ Forall (fun r => is_Some (StatusNotificationRequest.Timestamp r))
       [statusAt "Preparing" (Some 950); statusAt "Available" (Some 800)]
  /\ exists s1 states,
       run (OnStatusNotification (E := exampleEnv))
         [statusAt "Available" (Some 900); statusAt "Preparing" (Some 950);
          statusAt "Available" (Some 800)] freshState = Ok (s1 :: states)
       /\ Connector.status (conn s1) = Some (statusAt "Available" (Some 900))
       /\ nonDecreasing (heldTimestamp <$> s1 :: states).
Proof.
  assert (H : Forall (fun r => is_Some (StatusNotificationRequest.Timestamp r))
                [statusAt "Preparing" (Some 950); statusAt "Available" (Some 800)])
    by (repeat constructor; eexists; reflexivity).
  split; [reflexivity|]. split; [reflexivity|]. split; [exact H|].
  exact (status_timestamps_nondecreasing (E := exampleEnv)
           (statusAt "Available" (Some 900)) _ freshState eq_refl eq_refl H).
Defined.

Lemma readiness_signal_fires_once_witness :
  Connector.status (conn freshState) = None
  /\ Connector.statusC (conn freshState) = Open
  /\ exists s1 states,
       run (OnStatusNotification (E := exampleEnv))
         [statusAt "Available" (Some 900); statusAt "Preparing" None;
          statusAt "Available" (Some 800)] freshState = Ok (s1 :: states)
       /\ Forall (fun s' => Connector.statusC (conn s') = Closed
                            /\ is_Some (Connector.status (conn s'))) (s1 :: states).
Proof.
  split; [reflexivity|]. split; [reflexivity|].
  exact (readiness_signal_fires_once (E := exampleEnv)
           (statusAt "Available" (Some 900)) _ freshState eq_refl eq_refl).
Defined.

(** A closed channel on a connector without a status would panic: the
    guard of the close is the absence of a status. *)
Example close_is_guarded_by_status :
  OnStatusNotification (E := exampleEnv) (statusAt "Available" (Some 900))
    (mkState (Start 1700000000) (Connector.set_statusC Closed (freshConnector 1)))
  = Panicked CloseOfClosedChannel.
Proof. reflexivity. Qed.

Lemma meter_values_recover_transaction_witness :
  exists s',
    OnMeterValues (E := exampleEnv)
      (MeterValuesRequest.mk 1 (Some 42) [batchAt 960 "7000"]) chargingState
      = Ok (mkMeterValuesConfirmation, s')
    /\ instance s' = instance chargingState
    /\ Connector.txnId (conn s') = 42.
Proof.
  destruct (meter_values_recover_transaction (E := exampleEnv)
              (MeterValuesRequest.mk 1 (Some 42) [batchAt 960 "7000"]) chargingState)
    as (s' & H & Hi & Hrec & _).
  exists s'. split; [exact H|]. split; [exact Hi|].
  apply (Hrec 42 (statusAt "Charging" (Some 900))); try reflexivity.
  left. reflexivity.
Defined.

Lemma stop_transaction_zeroes_meter_witness :
  exists res s',
    OnStopTransaction (E := exampleEnv) stopRequest meteredState = Ok (res, s')
    /\ measurementsOf s' !! "Power.Active.Import"
       = Some (SampledValue.mk "0" "" "" "" "" "" "W")
    /\ measurementsOf s' !! "Current.Import.L1"
       = Some (SampledValue.mk "0" "" "" "" "" "" "A")
    /\ measurementsOf s' !! "Power.Active.Import.L1" = None.
Proof.
  destruct (stop_transaction_zeroes_meter (E := exampleEnv) stopRequest meteredState)
    as (res & s' & H & _ & _ & _ & Hzero & Habsent & _).
  exists res, s'. split; [exact H|]. split; [|split].
  - apply Hzero; [|eexists; reflexivity].
    apply (bool_decide_unpack _). reflexivity.
  - apply Hzero; [|eexists; reflexivity].
    apply (bool_decide_unpack _). reflexivity.
  - apply Habsent. reflexivity.
Defined.

(** After the stop, a measurand the stop does not know keeps its sample. *)
Example stop_transaction_keeps_energy :
  exists s',
    exec (OnStopTransaction (E := exampleEnv) stopRequest) meteredState = Ok s'
    /\ SampledValue.Value <$> measurementsOf s' !! "Energy.Active.Import.Register"
       = Some "1234"
    /\ measurementsOf s' !! "Current.Import.L2" = None.
Proof. vm_compute. eexists. split; [reflexivity|]. split; reflexivity. Qed.

Lemma transaction_ids_increase_witness :
  MinInt64 <= 1700000000
  /\ 1700000000
     + Z.of_nat (length [(freshConnector 1, startRequest "a");
                         (freshConnector 2, startRequest "b");
                         (freshConnector 1, startRequest "c")]) <= MaxInt64
  /\ exists ids,
       issue (E := exampleEnv)
         [(freshConnector 1, startRequest "a"); (freshConnector 2, startRequest "b");
          (freshConnector 1, startRequest "c")] (Start 1700000000) = Ok ids
       /\ length ids = 3%nat
       /\ Forall (fun i => 1700000000 < i) ids
       /\ StronglySorted Z.lt ids.
Proof.
  assert (Hlo : MinInt64 <= 1700000000) by (unfold MinInt64; lia).
  assert (Hhi : 1700000000
                + Z.of_nat (length [(freshConnector 1, startRequest "a");
                                    (freshConnector 2, startRequest "b");
                                    (freshConnector 1, startRequest "c")]) <= MaxInt64)
    by (unfold MaxInt64; simpl; lia).
  split; [exact Hlo|]. split; [exact Hhi|].
  exact (transaction_ids_increase (E := exampleEnv) 1700000000 _ Hlo Hhi).
Defined.

Example three_transaction_ids :
  issue (E := exampleEnv)
    [(freshConnector 1, startRequest "a"); (freshConnector 2, startRequest "b");
     (freshConnector 1, startRequest "c")] (Start 1700000000)
  = Ok [1700000001; 1700000002; 1700000003].
Proof. reflexivity. Qed.

(** The claim C5 as it stands fails across a [Restart] within the process:
    the new instance seeds its counter again.  Three transactions within
    two seconds of the start, then a restart: the first id of the new
    instance, 1700000003, is the last id of the old one. *)
Lemma transaction_id_repeats_after_restart :
  exists ids1 inst ids2,
    issue (E := exampleEnv)
      [(freshConnector 1, startRequest "a"); (freshConnector 2, startRequest "b");
       (freshConnector 1, startRequest "c")]
      (fst (ocpp.Start 1700000000 None)) = Ok ids1
    /\ ocpp.Restart 1700000002 (Some (CS.mk ∅ 1700000003)) = Some inst
    /\ issue (E := exampleEnv) [(freshConnector 1, startRequest "d")] inst = Ok ids2
    /\ ids1 = [1700000001; 1700000002; 1700000003]
    /\ ids2 = [1700000003]
    /\ ~ Forall (fun j => Forall (fun i => i < j) ids1) ids2.
Proof.
  exists [1700000001; 1700000002; 1700000003], (CS.mk ∅ 1700000002), [1700000003].
  split; [reflexivity|]. split; [reflexivity|].
  split; [reflexivity|]. split; [reflexivity|]. split; [reflexivity|].
  intros H. apply Forall_inv in H.
  apply Forall_inv_tail, Forall_inv_tail, Forall_inv in H. lia.
Qed.

(** The claim C3 as it stands fails: for a charger without a registration
    the dispatcher stores nothing, neither before the lookup of the charge
    point nor at all. *)
Lemma unregistered_status_not_cached :
  cachedStatus
    (cacheStatus "cp1" (Some (statusAt "Available" (Some 900))) (Start 1700000000))
    "cp1" 1 = None
  /\ CS_OnStatusNotification (P := exampleChargePoints) "cp1"
       (Some (statusAt "Available" (Some 900))) (Start 1700000000, [])
     = ((Some mkStatusNotificationConfirmation, None), (Start 1700000000, []))
  /\ cachedStatus (Start 1700000000) "cp1" 1 = None.
Proof. split; [reflexivity|]. split; reflexivity. Qed.

Lemma status_cached_before_delegation_witness :
  is_Some (CS.regs registeredCS !! "cp1")
  /\ exists w1 : CS.t * list string,
       cachedStatus (fst w1) "cp1" 1 = Some (statusAt "Available" (Some 900))
       /\ snd w1 = []
       /\ CS_OnStatusNotification (P := exampleChargePoints) "cp1"
            (Some (statusAt "Available" (Some 900))) (registeredCS, [])
          = ((Some mkStatusNotificationConfirmation, None), w1).
Proof.
  assert (H : is_Some (CS.regs (fst (registeredCS, @nil string)) !! "cp1"))
    by (eexists; reflexivity).
  split; [exact H|].
  destruct (status_cached_before_delegation (P := exampleChargePoints) "cp1"
              (statusAt "Available" (Some 900)) (registeredCS, []) H)
    as (w1 & Hc & Hh & Hr).
  exists w1. split; [exact Hc|]. split; [exact Hh|].
  rewrite Hr. destruct w1 as [cs1 h1]. simpl in Hh. subst h1. reflexivity.
Defined.

(** The payload with numbers, as in the comment of [OnDataTransfer]: both
    values are above their thresholds and are divided by 1000; there is
    one [Update] call, for the charger, which reaches the meter of the
    charger and the wildcard meter.  (4.11 and 249.7 are the results as
    binary64 numbers.) *)
Example masterplug_numbers_are_normalized :
  decodeFlatObject payloadOfNumbers
    = inr (<["voltage" := Float64 249700%float]> (<["current" := Float64 4110%float]> ∅))
  /\ meterParseMasterplug (J := exampleJson) payloadOfNumbers
     = (0x1.070a3d70a3d71p+2%float, 0x1.f366666666666p+7%float, None)
  /\ OnDataTransfer (J := exampleJson) "cp1" (Some (masterplug payloadOfNumbers))
       exampleMeters
     = ((Some (DataTransferConfirmation.mk "Accepted" Nil), None),
        meter.Update "cp1" 0x1.070a3d70a3d71p+2%float 0x1.f366666666666p+7%float
          exampleMeters).
Proof. split; [|split]; vm_compute; reflexivity. Qed.

(** Values at or below the thresholds pass unchanged. *)
Example masterplug_small_values_pass :
  meterParseMasterplug (J := exampleJson)
    ("{" +:+ quoted "current" +:+ ":100," +:+ quoted "voltage" +:+ ":1000}")
  = (100%float, 1000%float, None).
Proof. vm_compute. reflexivity. Qed.

(** C7, what the code does.  The payload of the design document carries
    the two values as strings.  The parser sends a string through the
    decoder between double quotes, where it is a JSON string and never a
    number: both values stay 0, the parser returns [no values], and the
    dispatcher confirms [Accepted] without any [Update]: the meters keep
    1 A and 230 V. *)
Theorem masterplug_strings_are_dropped :
  decodeFlatObject payloadOfStrings
    = inr (<["voltage" := Str "249700"]> (<["current" := Str "4110"]> ∅))
  /\ meterParseMasterplug (J := exampleJson) payloadOfStrings
     = (0%float, 0%float, Some "no values")
  /\ OnDataTransfer (J := exampleJson) "cp1" (Some (masterplug payloadOfStrings))
       exampleMeters
     = ((Some (DataTransferConfirmation.mk "Accepted" Nil), None), exampleMeters).
Proof. split; [|split]; vm_compute; reflexivity. Qed.

Lemma data_transfer_without_values_witness :
  exists obj,
    decodeFlatObject payloadWithoutValues = inr obj
    /\ obj !! "current" = Some (Str "n/a")
    /\ obj !! "voltage" = None
    /\ meterParseMasterplug (J := exampleJson) payloadWithoutValues
       = (0%float, 0%float, Some "no values")
    /\ OnDataTransfer (J := exampleJson) "cp1" (Some (masterplug payloadWithoutValues))
         exampleMeters
       = ((Some (DataTransferConfirmation.mk "Accepted" Nil), None), exampleMeters).
Proof.
  exists (<["power" := Float64 7%float]> (<["current" := Str "n/a"]> ∅)).
  assert (Hobj : Unmarshal_object (Json := exampleJson) payloadWithoutValues
                 = inr (<["power" := Float64 7%float]> (<["current" := Str "n/a"]> ∅)))
    by (vm_compute; reflexivity).
  assert (Hc : (<["power" := Float64 7%float]> (<["current" := Str "n/a"]> ∅)
                : gmap string any) !! "current" = Some (Str "n/a"))
    by (vm_compute; reflexivity).
  assert (Hv : (<["power" := Float64 7%float]> (<["current" := Str "n/a"]> ∅)
                : gmap string any) !! "voltage" = None)
    by (vm_compute; reflexivity).
  split; [exact Hobj|]. split; [exact Hc|]. split; [exact Hv|].
  exact (data_transfer_without_values (J := exampleJson) "cp1"
           (masterplug payloadWithoutValues) payloadWithoutValues
           _ exampleMeters eq_refl eq_refl eq_refl Hobj
           (zero_string _ _ "n/a" Hc) (zero_missing _ _ Hv)).
Defined.

(** * Further properties of the code *)

(** ** The connector *)

Section MoreConnectorProperties.

Context {E : Env}.

(** X1.  A batch that is not older than [meterUpdated]: under every key
    the connector holds the last sample of the batch with that key, its
    value trimmed; the keys the batch does not mention hold what they
    held; and [meterUpdated] is the batch's timestamp, unless the batch
    has no sample, in which case it stays. *)
Theorem accepted_batch_last_sample_wins (meterValue : MeterValue.t) (s : State) :
  meterUpdatedOf s <= batchTime meterValue s ->
  exists s', processMeterValue meterValue s = Ok (tt, s')
    /\ (forall k, measurementsOf s' !! k
                  = match lastWithKey (MeterValue.SampledValue meterValue) k with
                    | Some x => Some x
                    | None => measurementsOf s !! k
                    end)
    /\ meterUpdatedOf s'
       = match MeterValue.SampledValue meterValue with
         | [] => meterUpdatedOf s
         | _ :: _ => batchTime meterValue s
         end.
Proof.
  intros Hnew.
  unfold processMeterValue, batchTime in *.
  set (s0 := match MeterValue.Timestamp meterValue with
             | Some _ => s
             | None => mkState (instance s)
                         (Connector.set_clock (S (Connector.clock (conn s))) (conn s))
             end).
  set (ts := match MeterValue.Timestamp meterValue with
             | Some t => t
             | None => now (Connector.clock (conn s))
             end) in *.
  assert (Hts : match MeterValue.Timestamp meterValue with
                | Some t => mret t
                | None => clock_Now
                end s = Ok (ts, s0)).
  { subst ts s0. destruct (MeterValue.Timestamp meterValue); reflexivity. }
  assert (H0 : measurementsOf s0 = measurementsOf s
               /\ meterUpdatedOf s0 = meterUpdatedOf s).
  { subst s0. destruct (MeterValue.Timestamp meterValue); split; reflexivity. }
  destruct H0 as (Hm0 & Hu0).
  destruct (forEach_storeSample_lookup ts (MeterValue.SampledValue meterValue) s0)
    as (s1 & H1 & Hlook).
  destruct (forEach_storeSample_spec ts (MeterValue.SampledValue meterValue) s0)
    as (s1' & H1' & _ & _ & Hu1).
  rewrite H1 in H1'. injection H1' as <-.
  exists s1. split; [|split].
  - eapply bind_step; [exact Hts|].
    unfold mbind, M_bind, getConn. fold (meterUpdatedOf s0). rewrite Hu0.
    unfold time.Before. destruct (Z.ltb_spec ts (meterUpdatedOf s)); [lia|].
    exact H1.
  - intros k. rewrite Hlook, Hm0. reflexivity.
  - destruct (MeterValue.SampledValue meterValue) as [|x l].
    + destruct Hu1 as [[_ ->]|Hu1]; [exact Hu0|].
      simpl in H1. injection H1 as <-. exact Hu0.
    + destruct Hu1 as [[Hnil _]|Hu1]; [discriminate|exact Hu1].
Qed.

(** What [OnStatusNotification] leaves alone, whenever it returns. *)
Lemma OnStatusNotification_frame (request : StatusNotificationRequest.t)
    (s s' : State) (r : StatusNotificationConfirmation) :
  OnStatusNotification request s = Ok (r, s') ->
  instance s' = instance s
  /\ measurementsOf s' = measurementsOf s
  /\ meterUpdatedOf s' = meterUpdatedOf s
  /\ Connector.txnId (conn s') = Connector.txnId (conn s)
  /\ Connector.idTag (conn s') = Connector.idTag (conn s)
  /\ Connector.remoteIdTag (conn s') = Connector.remoteIdTag (conn s).
Proof.
  unfold OnStatusNotification, timestampValid, clock_Since, clock_Now,
    close_statusC, RemoteStartTransactionRequest, measurementsOf, meterUpdatedOf.
  unfold_monad. simpl.
  destruct (Connector.status (conn s)) as [held|] eqn:Hst; simpl.
  - destruct (StatusNotificationRequest.Timestamp request) as [t|]; simpl.
    + destruct (Timeout <? _); simpl.
      * destruct (isWaitingForAuth _); [destruct (negb _)|]; simpl;
          intros [= <- <-]; simpl; tauto.
      * rewrite Hst. simpl.
        destruct (StatusNotificationRequest.Timestamp held) as [ht|]; simpl;
          [destruct (negb (time.Before t ht)); simpl|];
          (destruct (isWaitingForAuth _); [destruct (negb _)|]); simpl;
          intros [= <- <-]; simpl; tauto.
    + destruct (isWaitingForAuth _); [destruct (negb _)|]; simpl;
        intros [= <- <-]; simpl; tauto.
  - destruct (close (Connector.statusC (conn s))) as [ch|p]; simpl; [|discriminate].
    destruct (isWaitingForAuth _); [destruct (negb _)|]; simpl;
      intros [= <- <-]; simpl; tauto.
Qed.

Lemma processMeterValue_keeps_keys (meterValue : MeterValue.t) (s0 s1 : State) :
  processMeterValue meterValue s0 = Ok (tt, s1) ->
  dom (measurementsOf s0) ⊆ dom (measurementsOf s1).
Proof.
  intros H1.
  destruct (processMeterValue_spec meterValue s0) as (s1' & H1' & _ & Hcase & _).
  rewrite H1 in H1'. injection H1' as <-.
  destruct Hcase as [[-> _]|[Hnew _]]; [reflexivity|].
  destruct (accepted_batch_last_sample_wins meterValue s0 Hnew) as (s1' & H1' & Hlook & _).
  rewrite H1 in H1'. injection H1' as <-.
  intros k. rewrite !elem_of_dom, Hlook.
  destruct (lastWithKey _ k); eauto.
Qed.

Lemma forEach_processMeterValue_keeps_keys (batches : list MeterValue.t) (s : State) :
  exists s', forEach batches processMeterValue s = Ok (tt, s')
    /\ dom (measurementsOf s) ⊆ dom (measurementsOf s').
Proof.
  revert s. induction batches as [|b batches IH]; intros s.
  - exists s. split; reflexivity.
  - destruct (processMeterValue_spec b s) as (s1 & H1 & _).
    destruct (IH s1) as (s2 & H2 & Hsub).
    exists s2. split.
    + cbn [forEach]. eapply bind_step; [exact H1|exact H2].
    + etrans; [exact (processMeterValue_keeps_keys b s s1 H1)|exact Hsub].
Qed.

Lemma OnMeterValues_keeps_keys (request : MeterValuesRequest.t) (s s' : State)
    (r : MeterValuesConfirmation) :
  OnMeterValues request s = Ok (r, s') ->
  dom (measurementsOf s) ⊆ dom (measurementsOf s').
Proof.
  unfold OnMeterValues.
  unfold mbind at 1, M_bind at 1, getConn.
  set (s0 := match recovers request (conn s) with
             | Some tid => mkState (instance s) (Connector.set_txnId tid (conn s))
             | None => s
             end).
  assert (H0 : match recovers request (conn s) with
               | Some tid => modifyConn (Connector.set_txnId tid)
               | None => mret tt
               end s = Ok (tt, s0)).
  { subst s0. destruct (recovers request (conn s)); reflexivity. }
  assert (Hm0 : measurementsOf s0 = measurementsOf s).
  { subst s0. destruct (recovers request (conn s)); reflexivity. }
  rewrite (bind_ok _ _ _ _ _ H0).
  destruct (forEach_processMeterValue_keeps_keys
              (sortByAge (MeterValuesRequest.MeterValue request)) s0)
    as (s1 & H1 & Hsub).
  rewrite (bind_ok _ _ _ _ _ H1). intros [= _ <-]. now rewrite <- Hm0.
Qed.

Lemma handle_keeps_keys (c : Call) (s s' : State) :
  exec (handle c) s = Ok s' ->
  dom (measurementsOf s) ⊆ dom (measurementsOf s').
Proof.
  unfold exec. destruct c as [request|request|request|request]; cbn [handle].
  - destruct (OnStatusNotification request s) as [[r s1]|p] eqn:H.
    + rewrite (bind_ok _ _ _ _ _ H). intros [= <-].
      apply OnStatusNotification_frame in H as (_ & -> & _). reflexivity.
    + unfold mbind, M_bind. rewrite H. discriminate.
  - destruct (OnMeterValues_spec request s) as (s1 & H & _).
    rewrite (bind_ok _ _ _ _ _ H). intros [= <-].
    exact (OnMeterValues_keeps_keys request s s1 _ H).
  - rewrite (bind_ok _ _ _ _ _ (OnStartTransaction_spec request s)).
    intros [= <-]. reflexivity.
  - destruct (OnStopTransaction_spec request s) as (s1 & H & _ & _ & _ & _ & _ & Hm).
    rewrite (bind_ok _ _ _ _ _ H). intros [= <-]. rewrite Hm.
    intros k. rewrite !elem_of_dom, foldl_zeroKey_lookup.
    destruct (measurementsOf s !! k); eauto.
Qed.

(** X2.  No handler of a connector removes a measurement: over every
    sequence of calls of the four handlers that returns, each state holds
    a sample under every key under which the state before held one.  (The
    map of measurements only grows: a measurand once reported stays until
    the connector goes.) *)
Theorem measurement_keys_are_never_removed
    (calls : list Call) (s : State) (states : list State) :
  run handle calls s = Ok states ->
  Forall (fun s' => dom (measurementsOf s) ⊆ dom (measurementsOf s')) states.
Proof.
  revert s states. induction calls as [|c calls IH]; intros s states; simpl.
  - intros [= <-]. constructor.
  - destruct (exec (handle c) s) as [s1|p] eqn:H1; [|discriminate].
    destruct (run handle calls s1) as [l|p] eqn:H2; [|discriminate].
    intros [= <-]. pose proof (handle_keeps_keys c s s1 H1) as Hsub.
    constructor; [exact Hsub|].
    eapply Forall_impl; [exact (IH s1 l H2)|]. simpl. intros s' Hs'.
    etrans; eassumption.
Qed.

(** A request whose batches all carry a timestamp older than
    [meterUpdated]: the loop leaves the state as it is. *)
Lemma forEach_stale (batches : list MeterValue.t) (s : State) :
  Forall (fun mv => exists t, MeterValue.Timestamp mv = Some t /\ t < meterUpdatedOf s)
    batches ->
  forEach batches processMeterValue s = Ok (tt, s).
Proof.
  induction 1 as [|mv batches (t & Ht & Hlt) _ IH]; [reflexivity|].
  cbn [forEach]. eapply bind_step; [|exact IH].
  unfold processMeterValue. rewrite Ht.
  unfold_monad. unfold time.Before. fold (meterUpdatedOf s).
  destruct (Z.ltb_spec t (meterUpdatedOf s)); [reflexivity|lia].
Qed.

(** X3.  A request whose batches all carry a timestamp older than
    [meterUpdated] is ignored, whatever it contains, when the batches
    processed are batches of the request: the measurements, [meterUpdated],
    the status, the id tag and the clock are what they were.  (Only the
    transaction id may change, by the recovery.) *)
Theorem stale_request_is_ignored (request : MeterValuesRequest.t) (s : State) :
  (forall l x, x ∈ sortByAge l -> x ∈ l) ->
  Forall (fun mv => exists t, MeterValue.Timestamp mv = Some t /\ t < meterUpdatedOf s)
    (MeterValuesRequest.MeterValue request) ->
  exists s', OnMeterValues request s = Ok (mkMeterValuesConfirmation, s')
    /\ measurementsOf s' = measurementsOf s
    /\ meterUpdatedOf s' = meterUpdatedOf s
    /\ Connector.status (conn s') = Connector.status (conn s)
    /\ Connector.idTag (conn s') = Connector.idTag (conn s)
    /\ Connector.clock (conn s') = Connector.clock (conn s).
Proof.
  intros Hsort Hstale.
  set (s0 := match recovers request (conn s) with
             | Some tid => mkState (instance s) (Connector.set_txnId tid (conn s))
             | None => s
             end).
  assert (H0 : match recovers request (conn s) with
               | Some tid => modifyConn (Connector.set_txnId tid)
               | None => mret tt
               end s = Ok (tt, s0)).
  { subst s0. destruct (recovers request (conn s)); reflexivity. }
  assert (Hsame : measurementsOf s0 = measurementsOf s
                  /\ meterUpdatedOf s0 = meterUpdatedOf s
                  /\ Connector.status (conn s0) = Connector.status (conn s)
                  /\ Connector.idTag (conn s0) = Connector.idTag (conn s)
                  /\ Connector.clock (conn s0) = Connector.clock (conn s)).
  { subst s0. destruct (recovers request (conn s)); repeat split; reflexivity. }
  exists s0. split; [|exact Hsame].
  unfold OnMeterValues. unfold mbind at 1, M_bind at 1, getConn.
  eapply bind_step; [exact H0|].
  eapply bind_step; [|reflexivity].
  apply forEach_stale. destruct Hsame as (_ & -> & _).
  rewrite Forall_forall in Hstale |- *. intros mv Hin. apply Hstale, Hsort, Hin.
Qed.

(** X4.  Meter values that arrive after the stop of the transaction with
    timestamps from before the stop (older than the clock's reading that
    [OnStopTransaction] took) do not bring the measurements back: the
    zeroes of the stop stay. *)
Theorem late_meter_values_after_stop
    (stop : StopTransactionRequest.t) (request : MeterValuesRequest.t) (s : State) :
  (forall l x, x ∈ sortByAge l -> x ∈ l) ->
  Forall (fun mv => exists t, MeterValue.Timestamp mv = Some t
                              /\ t < now (Connector.clock (conn s)))
    (MeterValuesRequest.MeterValue request) ->
  exists s1 s2,
    exec (OnStopTransaction stop) s = Ok s1
    /\ exec (OnMeterValues request) s1 = Ok s2
    /\ measurementsOf s2 = foldl zeroKey (measurementsOf s) stoppedMeasurands
    /\ meterUpdatedOf s2 = now (Connector.clock (conn s)).
Proof.
  intros Hsort Hstale.
  destruct (OnStopTransaction_spec stop s) as (s1 & H1 & _ & _ & _ & _ & Hu1 & Hm1).
  destruct (stale_request_is_ignored request s1 Hsort) as (s2 & H2 & Hm2 & Hu2 & _).
  { now rewrite Hu1. }
  exists s1, s2. unfold exec. rewrite H1, H2.
  repeat split; congruence.
Qed.

(** X5.  The stop of a transaction does not end its recovery: while the
    last status is still [Charging], [SuspendedEV] or [SuspendedEVSE], meter
    values that carry a transaction id greater than 0 make that id the
    connector's transaction again, right after [OnStopTransaction] has set
    it to 0. *)
Theorem stopped_transaction_is_recovered
    (stop : StopTransactionRequest.t) (request : MeterValuesRequest.t)
    (s : State) (tid : Z) (st : StatusNotificationRequest.t) :
  Connector.status (conn s) = Some st ->
  StatusNotificationRequest.Status st = "Charging"
  \/ StatusNotificationRequest.Status st = "SuspendedEV"
  \/ StatusNotificationRequest.Status st = "SuspendedEVSE" ->
  MeterValuesRequest.TransactionId request = Some tid ->
  0 < tid ->
  exists s1 s2,
    exec (OnStopTransaction stop) s = Ok s1
    /\ Connector.txnId (conn s1) = 0
    /\ exec (OnMeterValues request) s1 = Ok s2
    /\ Connector.txnId (conn s2) = tid.
Proof.
  intros Hst Hstatus Htid Hpos.
  destruct (OnStopTransaction_spec stop s) as (s1 & H1 & _ & Htx1 & _ & Hst1 & _).
  destruct (OnMeterValues_spec request s1) as (s2 & H2 & _ & Htx2 & _).
  exists s1, s2. unfold exec. rewrite H1, H2.
  split; [reflexivity|]. split; [exact Htx1|]. split; [reflexivity|].
  rewrite Htx2.
  assert (Hr : recovers request (conn s1) = Some tid).
  { apply recovers_Some. repeat split; try assumption.
    exists st. split; [congruence|]. now apply chargingOrSuspended_iff. }
  now rewrite Hr.
Qed.

Lemma OnMeterValues_keeps_idTag (request : MeterValuesRequest.t) (s : State) :
  exists s', OnMeterValues request s = Ok (mkMeterValuesConfirmation, s')
    /\ Connector.txnId (conn s')
       = match recovers request (conn s) with
         | Some tid => tid
         | None => Connector.txnId (conn s)
         end
    /\ Connector.idTag (conn s') = Connector.idTag (conn s)
    /\ Connector.remoteStarts (conn s') = Connector.remoteStarts (conn s).
Proof.
  unfold OnMeterValues.
  unfold mbind at 1, M_bind at 1, getConn.
  set (s0 := match recovers request (conn s) with
             | Some tid => mkState (instance s) (Connector.set_txnId tid (conn s))
             | None => s
             end).
  assert (H0 : match recovers request (conn s) with
               | Some tid => modifyConn (Connector.set_txnId tid)
               | None => mret tt
               end s = Ok (tt, s0)).
  { subst s0. destruct (recovers request (conn s)); reflexivity. }
  rewrite (bind_ok _ _ _ _ _ H0).
  destruct (forEach_processMeterValue_spec
              (sortByAge (MeterValuesRequest.MeterValue request)) s0)
    as (s1 & H1 & (_ & _ & _ & _ & Htx & Htag & _ & Hrs) & _).
  exists s1. rewrite (bind_ok _ _ _ _ _ H1). split; [reflexivity|].
  rewrite Htx, Htag, Hrs. subst s0.
  destruct (recovers request (conn s)); simpl; auto.
Qed.

(** X6.  A transaction that [OnStartTransaction] has started is not
    replaced by the recovery: while the counter is within 0 and the int64
    maximum, the id issued is the counter plus one, and meter values
    carrying any transaction id leave the connector with the id issued
    and the tag of the start. *)
Theorem started_transaction_is_kept
    (start : StartTransactionRequest.t) (request : MeterValuesRequest.t) (s : State) :
  0 <= CS.txnId (instance s) < MaxInt64 ->
  exists res s1 s2,
    OnStartTransaction start s = Ok (res, s1)
    /\ StartTransactionConfirmation.TransactionId res = CS.txnId (instance s) + 1
    /\ exec (OnMeterValues request) s1 = Ok s2
    /\ Connector.txnId (conn s2) = CS.txnId (instance s) + 1
    /\ Connector.idTag (conn s2) = StartTransactionRequest.IdTag start.
Proof.
  intros Hrange.
  assert (Hw : wrap64 (CS.txnId (instance s) + 1) = CS.txnId (instance s) + 1).
  { apply wrap64_id. unfold MinInt64, MaxInt64 in *. lia. }
  rewrite OnStartTransaction_spec, Hw.
  eexists _, _. 
  match goal with |- exists s2, Ok (_, ?s1) = _ /\ _ =>
    destruct (OnMeterValues_keeps_idTag request s1) as (s2 & H2 & Htx2 & Htag2 & _)
  end.
  exists s2. split; [reflexivity|]. split; [reflexivity|].
  unfold exec. rewrite H2. split; [reflexivity|].
  cbn [conn] in Htx2, Htag2.
  assert (Hr : recovers request
                 (Connector.set_idTag (StartTransactionRequest.IdTag start)
                    (Connector.set_txnId (CS.txnId (instance s) + 1) (conn s))) = None).
  { destruct (recovers _ _) as [tid|] eqn:Hr; [|reflexivity].
    apply recovers_Some in Hr as (_ & _ & Hz & _). simpl in Hz. lia. }
  rewrite Hr in Htx2. split; [exact Htx2|exact Htag2].
Qed.

End MoreConnectorProperties.

Section MoreStatusProperties.

Context {E : Env}.

(** A later status, with the clock: the clock is read once when the
    request has a timestamp, and not at all when it has none. *)
Lemma OnStatusNotification_later_clock
    (request held : StatusNotificationRequest.t) (s : State) :
  Connector.status (conn s) = Some held ->
  exists s', OnStatusNotification request s = Ok (mkStatusNotificationConfirmation, s')
    /\ Connector.statusC (conn s') = Connector.statusC (conn s)
    /\ match StatusNotificationRequest.Timestamp request with
       | None =>
           Connector.status (conn s') = Some request
           /\ Connector.clock (conn s') = Connector.clock (conn s)
       | Some t =>
           Connector.clock (conn s') = S (Connector.clock (conn s))
           /\ if Timeout <? time.Sub (now (Connector.clock (conn s))) t
              then Connector.status (conn s') = Some held
              else match StatusNotificationRequest.Timestamp held with
                   | None => Connector.status (conn s') = Some request
                   | Some ht =>
                       if t <? ht
                       then Connector.status (conn s') = Some held
                       else Connector.status (conn s') = Some request
                   end
       end.
Proof.
  intros Hst.
  destruct (OnStatusNotification_later request held s Hst) as (s' & H & _ & Hc & Hcase).
  exists s'. split; [exact H|]. split; [exact Hc|].
  assert (Hclock : Connector.clock (conn s')
                   = match StatusNotificationRequest.Timestamp request with
                     | Some _ => S (Connector.clock (conn s))
                     | None => Connector.clock (conn s)
                     end).
  { clear Hcase Hc. revert H.
    unfold OnStatusNotification, timestampValid, clock_Since, clock_Now,
      RemoteStartTransactionRequest.
    unfold_monad. simpl. rewrite Hst.
    destruct (StatusNotificationRequest.Timestamp request) as [t|]; simpl.
    - destruct (Timeout <? _); simpl.
      + destruct (isWaitingForAuth _); [destruct (negb _)|]; simpl;
          intros [= <-]; reflexivity.
      + rewrite Hst. simpl.
        destruct (StatusNotificationRequest.Timestamp held) as [ht|]; simpl;
          [destruct (negb (time.Before t ht)); simpl|];
          (destruct (isWaitingForAuth _); [destruct (negb _)|]); simpl;
          intros [= <-]; reflexivity.
    - destruct (isWaitingForAuth _); [destruct (negb _)|]; simpl;
        intros [= <-]; reflexivity. }
  destruct (StatusNotificationRequest.Timestamp request); split; assumption.
Qed.

(** X7.  A status report whose timestamp is older than the timeout,
    measured at the clock's reading, never replaces a held status: not
    when it is newer than the held one, and not when the held one has no
    timestamp.  The call returns and leaves status and readiness channel
    as they are. *)
Theorem expired_status_is_ignored
    (request held : StatusNotificationRequest.t) (t : Z) (s : State) :
  Connector.status (conn s) = Some held ->
  StatusNotificationRequest.Timestamp request = Some t ->
  Timeout < time.Sub (now (Connector.clock (conn s))) t ->
  exists s', OnStatusNotification request s = Ok (mkStatusNotificationConfirmation, s')
    /\ Connector.status (conn s') = Some held
    /\ Connector.statusC (conn s') = Connector.statusC (conn s).
Proof.
  intros Hst Ht Hexp.
  destruct (OnStatusNotification_later request held s Hst) as (s' & H & _ & Hc & Hcase).
  exists s'. split; [exact H|]. split; [|exact Hc].
  rewrite Ht in Hcase.
  destruct (Z.ltb_spec Timeout (time.Sub (now (Connector.clock (conn s))) t));
    [exact Hcase|lia].
Qed.

Lemma Sub_mono (a b t : Z) : a <= b -> time.Sub a t <= time.Sub b t.
Proof. unfold time.Sub. lia. Qed.

(** X8.  A status notification delivered twice in a row: if the clock does
    not go back between the two readings, the second delivery returns and
    leaves the held status as the first left it, whether the first was
    accepted or ignored; the readiness channel is not touched. *)
Theorem duplicate_status_is_ignored
    (request : StatusNotificationRequest.t) (s s1 : State) :
  now (Connector.clock (conn s)) <= now (S (Connector.clock (conn s))) ->
  exec (OnStatusNotification request) s = Ok s1 ->
  exists s2,
    exec (OnStatusNotification request) s1 = Ok s2
    /\ Connector.status (conn s2) = Connector.status (conn s1)
    /\ Connector.statusC (conn s2) = Connector.statusC (conn s1).
Proof.
  intros Hclock H1. unfold exec in *.
  destruct (OnStatusNotification request s) as [[r s1']|p] eqn:Hrun; [|discriminate].
  injection H1 as ->. destruct r.
  (* the first delivery: accepted, or ignored with its reason *)
  assert (Hfirst :
    Connector.status (conn s1) = Some request
    \/ exists held t,
         Connector.status (conn s1) = Some held
         /\ StatusNotificationRequest.Timestamp request = Some t
         /\ Connector.clock (conn s1) = S (Connector.clock (conn s))
         /\ (Timeout < time.Sub (now (Connector.clock (conn s))) t
             \/ exists ht, StatusNotificationRequest.Timestamp held = Some ht /\ t < ht)).
  { destruct (Connector.status (conn s)) as [held|] eqn:Hst.
    - destruct (OnStatusNotification_later_clock request held s Hst)
        as (s' & H & _ & Hcase).
      rewrite Hrun in H. injection H as <-.
      destruct (StatusNotificationRequest.Timestamp request) as [t|]; [|tauto].
      destruct Hcase as [Hck Hcase].
      destruct (Z.ltb_spec Timeout (time.Sub (now (Connector.clock (conn s))) t)).
      + right. exists held, t. eauto 10.
      + destruct (StatusNotificationRequest.Timestamp held) as [ht|] eqn:Hht; [|tauto].
        destruct (Z.ltb_spec t ht); [|tauto].
        right. exists held, t. eauto 10.
    - destruct (Connector.statusC (conn s)) eqn:Hc.
      + destruct (OnStatusNotification_first request s Hst Hc) as (s' & H & _ & Hs' & _).
        rewrite Hrun in H. injection H as <-. tauto.
      + exfalso. revert Hrun. unfold OnStatusNotification, close_statusC.
        unfold_monad. simpl. rewrite Hst. simpl. rewrite Hc. discriminate. }
  destruct Hfirst as [Hs1|(held & t & Hs1 & Ht & Hck & Hwhy)].
  - destruct (OnStatusNotification_later_clock request request s1 Hs1)
      as (s2 & H2 & Hc2 & Hcase).
    exists s2. rewrite H2. split; [reflexivity|]. split; [|exact Hc2].
    rewrite Hs1.
    destruct (StatusNotificationRequest.Timestamp request) as [t|]; [|tauto].
    destruct Hcase as [_ Hcase].
    destruct (Timeout <? _); [exact Hcase|]. destruct (t <? t); exact Hcase.
  - destruct (OnStatusNotification_later_clock request held s1 Hs1)
      as (s2 & H2 & Hc2 & Hcase).
    exists s2. rewrite H2. split; [reflexivity|]. split; [|exact Hc2].
    rewrite Hs1. rewrite Ht in Hcase. destruct Hcase as [_ Hcase].
    rewrite Hck in Hcase.
    destruct (Z.ltb_spec Timeout
                (time.Sub (now (S (Connector.clock (conn s)))) t)) as [|Hfresh];
      [exact Hcase|].
    destruct Hwhy as [Hexp|(ht & Hht & Hlt)].
    + pose proof (Sub_mono _ _ t Hclock). lia.
    + rewrite Hht in Hcase. destruct (Z.ltb_spec t ht); [exact Hcase|lia].
Qed.

(** The remote-start commands that [OnStatusNotification] sends. *)
Lemma OnStatusNotification_remoteStarts (request : StatusNotificationRequest.t)
    (s s' : State) (r : StatusNotificationConfirmation) :
  OnStatusNotification request s = Ok (r, s') ->
  Connector.remoteStarts (conn s')
  = if isWaitingForAuth
         (Connector.set_remoteStarts (Connector.remoteStarts (conn s)) (conn s'))
       && negb (String.eqb (Connector.remoteIdTag (conn s)) "")
    then Connector.remoteIdTag (conn s) :: Connector.remoteStarts (conn s)
    else Connector.remoteStarts (conn s).
Proof.
  destruct s as [inst c]. destruct c.
  unfold OnStatusNotification, timestampValid, clock_Since, clock_Now,
    close_statusC, RemoteStartTransactionRequest.
  unfold_monad. cbn.
  destruct status as [held|]; cbn.
  - destruct (StatusNotificationRequest.Timestamp request) as [t|]; cbn.
    + destruct (Timeout <? _); cbn.
      * destruct (isWaitingForAuth _) eqn:Hw; [destruct (negb _) eqn:Hn|]; cbn;
          intros [= <- <-];
          unfold Connector.set_clock, Connector.set_status, Connector.set_statusC,
            Connector.set_remoteStarts in *; cbn in *; rewrite ?Hw, ?Hn; reflexivity.
      * destruct (StatusNotificationRequest.Timestamp held) as [ht|]; cbn;
          [destruct (negb (time.Before t ht)); cbn|];
          (destruct (isWaitingForAuth _) eqn:Hw; [destruct (negb _) eqn:Hn|]); cbn;
          intros [= <- <-];
          unfold Connector.set_clock, Connector.set_status, Connector.set_statusC,
            Connector.set_remoteStarts in *; cbn in *; rewrite ?Hw, ?Hn; reflexivity.
    + destruct (isWaitingForAuth _) eqn:Hw; [destruct (negb _) eqn:Hn|]; cbn;
        intros [= <- <-];
          unfold Connector.set_clock, Connector.set_status, Connector.set_statusC,
            Connector.set_remoteStarts in *; cbn in *; rewrite ?Hw, ?Hn; reflexivity.
  - destruct statusC; cbn; [|discriminate].
    destruct (isWaitingForAuth _) eqn:Hw; [destruct (negb _) eqn:Hn|]; cbn;
      intros [= <- <-];
          unfold Connector.set_clock, Connector.set_status, Connector.set_statusC,
            Connector.set_remoteStarts in *; cbn in *; rewrite ?Hw, ?Hn; reflexivity.
Qed.

(** X9.  Remote starts.  A status notification sends at most one
    remote-start command: one with the stored tag, exactly when, after the
    status has been dealt with, the connector waits for authorization and
    the stored tag is not empty.  The handlers of meter values, start and
    stop send none. *)
Theorem remote_start_only_when_waiting (c : Call) (s s' : State) :
  exec (handle c) s = Ok s' ->
  Connector.remoteStarts (conn s')
  = match c with
    | CallStatusNotification _ =>
        if isWaitingForAuth
             (Connector.set_remoteStarts (Connector.remoteStarts (conn s)) (conn s'))
           && negb (String.eqb (Connector.remoteIdTag (conn s)) "")
        then Connector.remoteIdTag (conn s) :: Connector.remoteStarts (conn s)
        else Connector.remoteStarts (conn s)
    | _ => Connector.remoteStarts (conn s)
    end.
Proof.
  unfold exec. destruct c as [request|request|request|request]; cbn [handle].
  - destruct (OnStatusNotification request s) as [[r s1]|p] eqn:H.
    + rewrite (bind_ok _ _ _ _ _ H). intros [= <-].
      exact (OnStatusNotification_remoteStarts request s s1 r H).
    + unfold mbind, M_bind. rewrite H. discriminate.
  - destruct (OnMeterValues_keeps_idTag request s) as (s1 & H & _ & _ & Hrs).
    rewrite (bind_ok _ _ _ _ _ H). intros [= <-]. exact Hrs.
  - rewrite (bind_ok _ _ _ _ _ (OnStartTransaction_spec request s)).
    intros [= <-]. reflexivity.
  - destruct (assumeMeterStopped_spec
                (mkState (instance s)
                   (Connector.set_idTag "" (Connector.set_txnId 0 (conn s)))))
      as (s1 & H & (_ & _ & _ & _ & _ & _ & _ & Hrs) & _).
    assert (Hstop : OnStopTransaction request s
                    = Ok (StopTransactionConfirmation.mk (Some accepted), s1)).
    { unfold OnStopTransaction.
      eapply bind_step; [reflexivity|].
      eapply bind_step; [reflexivity|].
      eapply bind_step; [exact H|]. reflexivity. }
    rewrite (bind_ok _ _ _ _ _ Hstop). intros [= <-]. exact Hrs.
Qed.

End MoreStatusProperties.

(** ** The data-transfer meter *)

Lemma Update_lookup (cp : string) (c v : float) (p : meter.t) (k : string) :
  meter.instances (meter.Update cp c v p) !! k
  = if String.eqb cp k || String.eqb k ""
    then (fun m => meter.mkMeter (meter.id m) c v) <$> meter.instances p !! k
    else meter.instances p !! k.
Proof.
  unfold meter.Update. cbn [meter.instances].
  generalize (meter.instances p). intros I.
  destruct (String.eqb_spec cp k) as [Hck|Hck];
    destruct (String.eqb_spec k "") as [Hk|Hk]; cbn [orb];
    destruct (I !! cp) as [m|] eqn:Hcp;
    repeat (rewrite lookup_insert; case_decide; try congruence);
    destruct (I !! "") as [w|] eqn:Hw;
    repeat (rewrite lookup_insert; case_decide; try congruence);
    simplify_eq; rewrite ?Hcp, ?Hw; try reflexivity; try congruence.
  all: simplify_map_eq; reflexivity.
Qed.

(** X10.  After any sequence of [Update] calls, every registered meter
    holds the values of the last call that reached it (a call for its own
    charge point; for the wildcard meter, any call) and keeps its id; a
    meter that no call reached holds what it held; no meter is added or
    removed. *)
Theorem meters_hold_latest_update
    (us : list (string * float * float)) (p : meter.t) (k : string) :
  meter.instances (updateAll us p) !! k
  = match lastUpdateFor k us with
    | Some (c, v) => (fun m => meter.mkMeter (meter.id m) c v) <$> meter.instances p !! k
    | None => meter.instances p !! k
    end.
Proof.
  revert p. induction us as [|[[cp c] v] us IH]; intros p; [reflexivity|].
  unfold updateAll in *. cbn [foldl fst snd lastUpdateFor]. rewrite IH, Update_lookup.
  destruct (lastUpdateFor k us) as [[c' v']|].
  - destruct (String.eqb cp k || String.eqb k ""); [|reflexivity].
    destruct (meter.instances p !! k); reflexivity.
  - destruct (String.eqb cp k || String.eqb k ""); reflexivity.
Qed.

(** X11.  The readings after an [Update]: the meter registered for the
    charge point reports the current and the voltage of the call on the
    first phase and 0 on the others, their product as power (total and
    first phase), and never an error. *)
Theorem readings_after_update
    (cp : string) (c v : float) (p : meter.t) (m : meter.OCPPDataTransferMeter) :
  meter.instances p !! cp = Some m ->
  exists m',
    meter.instances (meter.Update cp c v p) !! cp = Some m'
    /\ meter.id m' = meter.id m
    /\ OCPPDataTransferMeter.Currents m' = (c, 0%float, 0%float, None)
    /\ OCPPDataTransferMeter.Voltages m' = (v, 0%float, 0%float, None)
    /\ OCPPDataTransferMeter.CurrentPower m' = (PrimFloat.mul v c, None)
    /\ OCPPDataTransferMeter.Powers m'
       = (PrimFloat.mul v c, 0%float, 0%float, None).
Proof.
  intros Hm. exists (meter.mkMeter (meter.id m) c v).
  rewrite Update_lookup, String.eqb_refl, Hm. cbn. repeat split; reflexivity.
Qed.

(** ** The data-transfer meters as objects *)

Lemma Update_objects_lookup (cp : string) (c v : float) (st : meterStore.t) (a : nat) :
  meterStore.objects (meterStore.Update cp c v st) !! a
  = if bool_decide (meterStore.instances st !! cp = Some a
                    \/ meterStore.instances st !! "" = Some a)
    then (fun m => meter.mkMeter (meter.id m) c v) <$> meterStore.objects st !! a
    else meterStore.objects st !! a.
Proof.
  unfold meterStore.Update, meterStore.write. cbn [meterStore.objects].
  destruct (meterStore.instances st !! cp) as [m1|];
    destruct (meterStore.instances st !! "") as [m2|];
    rewrite ?list_lookup_alter; repeat case_decide; case_bool_decide;
    subst; try reflexivity; try (exfalso; intuition congruence).
  all: try (destruct (meterStore.objects st !! a); reflexivity).
Qed.

Lemma Update_wf (cp : string) (c v : float) (st : meterStore.t) :
  meterStore.wf st -> meterStore.wf (meterStore.Update cp c v st).
Proof.
  intros [Hval Hinj]. split; [|exact Hinj].
  intros k m Hk. cbn [meterStore.Update meterStore.instances] in Hk.
  destruct (Hval k m Hk) as (o & Ho & Hid).
  rewrite Update_objects_lookup, Ho.
  case_bool_decide; eexists; (split; [reflexivity|exact Hid]).
Qed.

Section NewMeter.

Variable Other : Type.
Variable DecodeOther : Other -> error + string.

Lemma New_wf (other : Other) (st : meterStore.t) :
  meterStore.wf st ->
  meterStore.wf (snd (meterStore.NewOCPPDataTransferMeter Other DecodeOther other st)).
Proof.
  intros [Hval Hinj]. unfold meterStore.NewOCPPDataTransferMeter.
  destruct (DecodeOther other) as [err|cfgID]; [split; assumption|].
  cbn [snd]. split; cbn [meterStore.objects meterStore.instances].
  - intros k m. rewrite lookup_insert. case_decide as Hk.
    + intros [= <-]. subst k. eexists. split; [now apply list_lookup_middle|reflexivity].
    + intros Hm. destruct (Hval k m Hm) as (o & Ho & Hid).
      exists o. split; [now apply lookup_app_l_Some|exact Hid].
  - intros k1 k2 m. rewrite !lookup_insert.
    repeat case_decide; subst; try congruence.
    + intros [= <-] Hm. destruct (Hval k2 _ Hm) as (o & Ho & _).
      apply lookup_lt_Some in Ho. lia.
    + intros Hm [= <-]. destruct (Hval k1 _ Hm) as (o & Ho & _).
      apply lookup_lt_Some in Ho. lia.
    + apply Hinj.
Qed.

(** X12.  Every state of the meter package that constructions and
    updates reach from the empty one is well formed: each pointer in the
    registry leads to a meter, that meter carries the id it is registered
    under, and no two ids lead to the same meter. *)
Theorem reachable_registry_is_well_formed (ops : list (meterOp Other)) :
  meterStore.wf (applyOps DecodeOther ops noMeters).
Proof.
  assert (H0 : meterStore.wf noMeters).
  { split; intros *; cbn; rewrite lookup_empty; discriminate. }
  revert H0. unfold applyOps. generalize noMeters.
  induction ops as [|op ops IH]; intros st Hwf; [exact Hwf|].
  cbn [foldl]. apply IH. destruct op; cbn [applyOp]; auto using New_wf, Update_wf.
Qed.

(** X13.  The constructor.  When the configuration does not decode, it
    returns the error and registers nothing.  Otherwise it returns a new
    meter with the configured id, at 0 A and 0 V, and the registry leads to
    that meter under the id; what was registered under the id before is no
    longer reachable through the registry, and every other id leads to
    what it led to. *)
Theorem new_meter_is_registered (other : Other) (st : meterStore.t) :
  meterStore.wf st ->
  match DecodeOther other with
  | inl err =>
      meterStore.NewOCPPDataTransferMeter Other DecodeOther other st = (inl err, st)
  | inr cfgID =>
      exists m st',
        meterStore.NewOCPPDataTransferMeter Other DecodeOther other st = (inr m, st')
        /\ meterStore.objects st !! m = None
        /\ meterStore.objects st' !! m = Some (meter.mkMeter cfgID 0%float 0%float)
        /\ meterStore.view st'
           = <[cfgID := meter.mkMeter cfgID 0%float 0%float]> (meterStore.view st)
  end.
Proof.
  intros [Hval _]. unfold meterStore.NewOCPPDataTransferMeter.
  destruct (DecodeOther other) as [err|cfgID]; [reflexivity|].
  eexists _, _. split; [reflexivity|]. cbn [meterStore.objects].
  split; [now apply lookup_ge_None_2|]. split; [now apply list_lookup_middle|].
  apply map_eq. intros k. unfold meterStore.view.
  cbn [meterStore.objects meterStore.instances].
  rewrite lookup_omap, !lookup_insert. case_decide as Hk; cbn.
  - now apply list_lookup_middle.
  - rewrite lookup_omap.
    destruct (meterStore.instances st !! k) as [m|] eqn:Hm; [|reflexivity]. cbn.
    destruct (Hval k m Hm) as (o & Ho & _). rewrite Ho.
    now apply lookup_app_l_Some.
Qed.

Lemma updateAll_untouched (us : list (string * float * float))
    (st : meterStore.t) (a : nat) :
  (forall k, meterStore.instances st !! k <> Some a) ->
  meterStore.objects (meterStore.updateAll us st) !! a = meterStore.objects st !! a.
Proof.
  revert st. induction us as [|[[cp c] v] us IH]; intros st Hfree; [reflexivity|].
  unfold meterStore.updateAll in *. cbn [foldl fst snd].
  rewrite IH by exact Hfree.
  rewrite Update_objects_lookup. case_bool_decide as Hreach; [|reflexivity].
  exfalso. destruct Hreach as [Hr|Hr]; exact (Hfree _ Hr).
Qed.

(** X14.  Two meters constructed for the same id: the registry leads to
    the second one only.  The first one, whose pointer its owner still
    holds, is never written by any sequence of [Update] calls: it stays at
    0 A and 0 V. *)
Theorem shadowed_meter_is_never_updated
    (other1 other2 : Other) (cfgID : string) (st : meterStore.t)
    (us : list (string * float * float)) :
  meterStore.wf st ->
  DecodeOther other1 = inr cfgID ->
  DecodeOther other2 = inr cfgID ->
  exists m1 st1 m2 st2,
    meterStore.NewOCPPDataTransferMeter Other DecodeOther other1 st = (inr m1, st1)
    /\ meterStore.NewOCPPDataTransferMeter Other DecodeOther other2 st1 = (inr m2, st2)
    /\ m1 <> m2
    /\ meterStore.instances (meterStore.updateAll us st2) !! cfgID = Some m2
    /\ meterStore.objects (meterStore.updateAll us st2) !! m1
       = Some (meter.mkMeter cfgID 0%float 0%float).
Proof.
  intros [Hval _] H1 H2. unfold meterStore.NewOCPPDataTransferMeter.
  rewrite H1. cbn [meterStore.objects meterStore.instances]. rewrite H2.
  eexists _, _, _, _. split; [reflexivity|]. split; [reflexivity|].
  cbn [meterStore.objects meterStore.instances].
  split; [rewrite length_app; cbn [length]; lia|]. split.
  - assert (Hinst : forall us0 st0,
              meterStore.instances (meterStore.updateAll us0 st0)
              = meterStore.instances st0).
    { induction us0 as [|u us0 IH]; intros st0; [reflexivity|].
      unfold meterStore.updateAll in *. cbn [foldl]. now rewrite IH. }
    rewrite Hinst. cbn [meterStore.instances]. apply lookup_insert_eq.
  - rewrite updateAll_untouched.
    + cbn [meterStore.objects]. apply lookup_app_l_Some. now apply list_lookup_middle.
    + intros k. cbn [meterStore.instances]. rewrite !lookup_insert.
      repeat case_decide.
      * rewrite length_app. cbn [length]. intros [= Heq]. lia.
      * intros Hm. destruct (Hval k _ Hm) as (o' & Ho & _).
        apply lookup_lt_Some in Ho. lia.
Qed.

End NewMeter.

(** X15.  [Update] on the objects agrees with [Update] on the values: in a
    well-formed state, the registry seen through its pointers after an
    update is the registry of meter values after the same update. *)
Theorem update_through_pointers
    (cp : string) (c v : float) (st : meterStore.t)
    (log : list (string * float * float)) :
  meterStore.wf st ->
  meterStore.view (meterStore.Update cp c v st)
  = meter.instances (meter.Update cp c v (meter.mk (meterStore.view st) log)).
Proof.
  intros [Hval Hinj]. apply map_eq. intros k.
  rewrite Update_lookup. cbn [meter.instances].
  unfold meterStore.view. rewrite !lookup_omap.
  change (meterStore.instances (meterStore.Update cp c v st))
    with (meterStore.instances st).
  destruct (meterStore.instances st !! k) as [m|] eqn:Hm; cbn [mbind option_bind].
  - rewrite Update_objects_lookup.
    destruct (String.eqb_spec cp k) as [->|Hcp];
      destruct (String.eqb_spec k "") as [->|Hk]; cbn [orb];
      case_bool_decide as Hreach; try reflexivity.
    + exfalso. apply Hreach. now left.
    + exfalso. apply Hreach. now left.
    + exfalso. apply Hreach. now right.
    + exfalso. destruct Hreach as [Hr|Hr].
      * apply Hcp. exact (Hinj _ _ _ Hr Hm).
      * apply Hk. symmetry. exact (Hinj _ _ _ Hr Hm).
  - now destruct (String.eqb cp k || String.eqb k "").
Qed.

(** ** The dispatcher, further *)

Section MoreDispatcherProperties.

Context {J : Json} {P : ChargePoints} {H : ChargePointHandlers}.

(** X16.  What the MasterPlug parser computes.  A decoding error is
    returned as it is.  Otherwise only the fields [current] and [voltage]
    count, and only when they are JSON numbers: a string, a missing field
    or any other value reads as 0.  If both read as 0 the error is
    [no values]; else there is no error, and the current is divided by
    1000 when it is above 100, the voltage when it is above 1000. *)
Theorem masterplug_parser_reads_numbers (data : string) :
  meterParseMasterplug data
  = match Unmarshal_object data with
    | inl err => (0%float, 0%float, Some err)
    | inr obj =>
        let a := readNumber (obj !! "current") in
        let b := readNumber (obj !! "voltage") in
        if PrimFloat.eqb a 0%float && PrimFloat.eqb b 0%float
        then (0%float, 0%float, Some "no values")
        else (scaleAbove 100%float a, scaleAbove 1000%float b, None)
    end.
Proof.
  unfold meterParseMasterplug.
  destruct (Unmarshal_object data) as [err|obj]; [reflexivity|].
  assert (Hread : forall name,
            match obj !! name with
            | Some (Float64 t) => t
            | Some (Str t) =>
                match Unmarshal_float64 (quoted t) with
                | Some tmp => tmp
                | None => 0%float
                end
            | _ => 0%float
            end = readNumber (obj !! name)).
  { intros name. destruct (obj !! name) as [[| | | | |]|]; reflexivity. }
  rewrite !Hread. reflexivity.
Qed.

(** X17.  A data transfer is always confirmed with [Accepted] and without
    an error: for no request, for an unknown vendor or message, for a
    payload that does not parse.  It calls [Update] at most once, and then
    for the charger that sent it; without a request, or for a vendor or
    message other than MasterPlug/GetCTClampValue, it calls nothing. *)
Theorem data_transfer_is_always_accepted
    (id : string) (request : option DataTransferRequest.t) (m : meter.t) :
  exists m',
    OnDataTransfer id request m
    = ((Some (DataTransferConfirmation.mk "Accepted" Nil), None), m')
    /\ match request with
       | None => m' = m
       | Some r =>
           if String.eqb (DataTransferRequest.VendorId r) "MasterPlug"
              && String.eqb (DataTransferRequest.MessageId r) "GetCTClampValue"
           then m' = m \/ exists c v, m' = meter.Update id c v m
           else m' = m
       end.
Proof.
  unfold OnDataTransfer. eexists. split; [reflexivity|].
  destruct request as [r|]; [|reflexivity].
  destruct (_ && _); [|reflexivity].
  destruct (meterParseMasterplug _) as [[c v] [err|]]; eauto.
Qed.

(** X18.  The status cache after the locked part of the dispatcher's
    [OnStatusNotification]: the entry of the request's connector under the
    charger's id holds the request, whatever the timestamps of the request
    and of the entry it replaces, if the charger has a registration; every
    other entry, of this and of every other charger, is what it was; no
    registration is created or dropped, and the transaction counter is
    left alone. *)
Theorem status_cache_after_notification
    (id : string) (request : option StatusNotificationRequest.t) (cs : CS.t)
    (id' : string) (connector : Z) :
  cachedStatus (cacheStatus id request cs) id' connector
  = match request with
    | Some r =>
        if bool_decide (id' = id
                        /\ connector = StatusNotificationRequest.ConnectorId r
                        /\ is_Some (CS.regs cs !! id))
        then Some r
        else cachedStatus cs id' connector
    | None => cachedStatus cs id' connector
    end
  /\ dom (CS.regs (cacheStatus id request cs)) = dom (CS.regs cs)
  /\ CS.txnId (cacheStatus id request cs) = CS.txnId cs.
Proof.
  unfold cacheStatus, cachedStatus.
  destruct request as [r|]; [|destruct (CS.regs cs !! id); auto].
  destruct (CS.regs cs !! id) as [reg|] eqn:Hreg; cbn [CS.regs CS.txnId].
  - split; [|split; [|reflexivity]].
    + rewrite lookup_insert. case_decide as Hid.
      * subst id'. rewrite Hreg. cbn. rewrite lookup_insert.
        case_decide as Hc; case_bool_decide as Hb; try reflexivity.
        -- exfalso. apply Hb. eauto.
        -- exfalso. destruct Hb as (_ & Hb & _). congruence.
      * case_bool_decide as Hb; [|reflexivity].
        exfalso. destruct Hb as (Hb & _). congruence.
    + apply dom_insert_lookup_L. eauto.
  - split; [|auto]. case_bool_decide as Hb; [|reflexivity].
    exfalso. destruct Hb as (_ & _ & [? Hb]). discriminate.
Qed.

(** X19.  A charger without a charge point attached: meter values, the
    start and the stop of a transaction are confirmed without an error and
    leave the central system and the application layer as they are.  The
    start is accepted with the transaction id 0, and the transaction
    counter is not advanced. *)
Theorem unattached_charger_gets_defaults
    (id : string) (w : CS.t * Heap)
    (mreq : option MeterValuesRequest.t)
    (sreq : option StartTransactionRequest.t)
    (treq : option StopTransactionRequest.t) :
  ChargepointByID id w = None ->
  CS_OnMeterValues id mreq w = ((Some mkMeterValuesConfirmation, None), w)
  /\ CS_OnStartTransaction id sreq w
     = ((Some (StartTransactionConfirmation.mk
                 (Some (IdTagInfo.mk None "" "Accepted")) 0), None), w)
  /\ CS_OnStopTransaction id treq w
     = ((Some (StopTransactionConfirmation.mk
                 (Some (IdTagInfo.mk None "" "Accepted"))), None), w).
Proof.
  intros Hcp. unfold CS_OnMeterValues, CS_OnStartTransaction, CS_OnStopTransaction.
  rewrite Hcp. repeat split; reflexivity.
Qed.

End MoreDispatcherProperties.

(** ** The life of the central system *)

(** X20.  [Start] is idempotent: a second [Start] returns the instance
    that runs, with its registrations and its transaction counter (the
    counter is not seeded again).  [Instance] is [Start]: it returns the
    instance that runs, and when none runs it creates one and never
    returns nil. *)
Theorem start_is_idempotent (unixNow1 unixNow2 : Z) (g : option CS.t) :
  ocpp.Start unixNow2 (snd (ocpp.Start unixNow1 g))
  = (fst (ocpp.Start unixNow1 g), snd (ocpp.Start unixNow1 g))
  /\ snd (ocpp.Instance unixNow1 g) = Some (fst (ocpp.Instance unixNow1 g))
  /\ ocpp.Instance unixNow1 g
     = match g with
       | Some inst => (inst, g)
       | None => (CS.mk ∅ unixNow1, Some (CS.mk ∅ unixNow1))
       end.
Proof.
  unfold ocpp.Instance, ocpp.Start.
  destruct g as [inst|]; cbn; repeat split; reflexivity.
Qed.

Section Restart.

Context {E : Env}.

(** The ids of a sequence of calls, one by one. *)
Lemma issue_exact (calls : list (Connector.t * StartTransactionRequest.t)) (cs : CS.t) :
  MinInt64 <= CS.txnId cs ->
  CS.txnId cs + Z.of_nat (length calls) <= MaxInt64 ->
  issue calls cs
  = Ok ((fun k => CS.txnId cs + Z.of_nat k) <$> seq 1 (length calls)).
Proof.
  revert cs. induction calls as [|[c request] calls IH]; intros cs Hlo Hhi.
  - reflexivity.
  - cbn [length] in Hhi.
    assert (Hw : wrap64 (CS.txnId cs + 1) = CS.txnId cs + 1)
      by (apply wrap64_id; lia).
    cbn [issue]. rewrite OnStartTransaction_spec.
    cbn [instance conn CS.txnId CS.regs StartTransactionConfirmation.TransactionId].
    rewrite Hw. rewrite IH by (cbn [CS.txnId]; lia). cbn [CS.txnId].
    cbn [length seq fmap list_fmap]. f_equal. f_equal.
    rewrite <- (fmap_S_seq 1), <- list_fmap_compose.
    apply list_fmap_ext. intros _ k _. cbn. lia.
Qed.

(** X21.  Transaction ids across a restart.  [Restart] replaces the
    instance by a new one without registrations whose counter is seeded
    with the unix time of the restart.  The ids issued after the restart
    are all above the ids issued before it exactly when that unix time is
    at least the old seed plus the number of ids issued before; otherwise
    ids repeat or go back. *)
Theorem transaction_ids_across_restart
    (unixNow1 unixNow2 : Z)
    (calls1 calls2 : list (Connector.t * StartTransactionRequest.t))
    (g : option CS.t) :
  calls1 <> [] -> calls2 <> [] ->
  MinInt64 <= unixNow1 -> unixNow1 + Z.of_nat (length calls1) <= MaxInt64 ->
  MinInt64 <= unixNow2 -> unixNow2 + Z.of_nat (length calls2) <= MaxInt64 ->
  exists ids1 ids2,
    issue calls1 (fst (ocpp.Start unixNow1 None)) = Ok ids1
    /\ ocpp.Restart unixNow2 g = Some (CS.mk ∅ unixNow2)
    /\ issue calls2 (CS.mk ∅ unixNow2) = Ok ids2
    /\ ((forall i j, i ∈ ids1 -> j ∈ ids2 -> i < j)
        <-> unixNow1 + Z.of_nat (length calls1) <= unixNow2).
Proof.
  intros Hne1 Hne2 Hlo1 Hhi1 Hlo2 Hhi2.
  eexists _, _. split; [apply issue_exact; assumption|].
  split; [reflexivity|]. split; [apply issue_exact; assumption|].
  cbn [ocpp.Start fst Start CS.txnId].
  assert (Hn1 : (1 <= length calls1)%nat) by (destruct calls1; [congruence|cbn; lia]).
  assert (Hn2 : (1 <= length calls2)%nat) by (destruct calls2; [congruence|cbn; lia]).
  split.
  - intros Hall.
    specialize (Hall (unixNow1 + Z.of_nat (length calls1)) (unixNow2 + Z.of_nat 1)).
    assert (unixNow1 + Z.of_nat (length calls1) < unixNow2 + Z.of_nat 1); [|lia].
    apply Hall; apply list_elem_of_fmap; eexists; (split; [reflexivity|]);
      apply elem_of_seq; lia.
  - intros Hle i j Hi Hj.
    apply list_elem_of_fmap in Hi as (k1 & -> & Hk1).
    apply list_elem_of_fmap in Hj as (k2 & -> & Hk2).
    apply elem_of_seq in Hk1, Hk2. lia.
Qed.

End Restart.

(** * The further properties at work *)

Lemma sortByAge_ascending_elem (l : list MeterValue.t) (x : MeterValue.t) :
  x ∈ sortByAge_ascending l -> x ∈ l.
Proof.
  assert (Hins : forall v l0, x ∈ insertByAge v l0 -> x = v \/ x ∈ l0).
  { intros v l0. induction l0 as [|w l0 IH]; cbn [insertByAge].
    - rewrite list_elem_of_singleton. tauto.
    - destruct (MeterValue.Timestamp v), (MeterValue.Timestamp w);
        try (rewrite elem_of_cons; tauto).
      destruct (_ <=? _); rewrite !elem_of_cons; [tauto|].
      intros [->|Hx]; [tauto|]. destruct (IH Hx); tauto. }
  unfold sortByAge_ascending. induction l as [|v l IH]; cbn [foldr]; [tauto|].
  intros Hx. apply Hins in Hx as [->|Hx]; [left|right; apply IH, Hx].
Qed.

Lemma noMeters_wf : meterStore.wf noMeters.
Proof. split; intros *; cbn; rewrite lookup_empty; discriminate. Qed.

Lemma accepted_batch_last_sample_wins_witness :
  meterUpdatedOf meteredState
    <= batchTime (E := exampleEnv) (batchAt 960 " 7000 ") meteredState
  /\ exists s',
       processMeterValue (E := exampleEnv) (batchAt 960 " 7000 ") meteredState
         = Ok (tt, s')
       /\ measurementsOf s' !! "Power.Active.Import"
          = Some (sampleOf "Power.Active.Import" "" "7000" "W")
       /\ measurementsOf s' !! "Current.Import.L1"
          = Some (sampleOf "Current.Import" "L1" "16" "A")
       /\ meterUpdatedOf s' = 960.
Proof.
  assert (Hnew : meterUpdatedOf meteredState
                 <= batchTime (E := exampleEnv) (batchAt 960 " 7000 ") meteredState)
    by (vm_compute; discriminate).
  split; [exact Hnew|].
  destruct (accepted_batch_last_sample_wins (E := exampleEnv)
              (batchAt 960 " 7000 ") meteredState Hnew) as (s' & H & Hlook & Hu).
  exists s'. split; [exact H|].
  split; [rewrite Hlook; reflexivity|]. split; [rewrite Hlook; reflexivity|exact Hu].
Defined.

Lemma measurement_keys_are_never_removed_witness :
  exists states,
    run (handle (E := exampleEnv)) sessionCalls freshState = Ok states
    /\ Forall (fun s' => dom (measurementsOf freshState) ⊆ dom (measurementsOf s'))
         states.
Proof.
  destruct (run (handle (E := exampleEnv)) sessionCalls freshState)
    as [states|p] eqn:Hrun.
  - exists states. split; [reflexivity|].
    exact (measurement_keys_are_never_removed (E := exampleEnv) sessionCalls
             freshState states Hrun).
  - exfalso. vm_compute in Hrun. discriminate Hrun.
Defined.

(** The session at work, by transaction id and power: after the stop the
    power reads 0; the meter values that follow are older than the stop
    and leave the 0, but they bring the transaction back. *)
Example session_states :
  match run (handle (E := exampleEnv)) sessionCalls freshState with
  | Ok states =>
      (fun s => (Connector.txnId (conn s),
                 SampledValue.Value <$> measurementsOf s !! "Power.Active.Import"))
        <$> states
      = [ (0, None); (1700000001, None); (1700000001, None);
          (1700000001, Some "7000"); (0, Some "0"); (1700000001, Some "0") ]
  | Panicked _ => False
  end.
Proof. vm_compute. reflexivity. Qed.

Lemma stale_request_is_ignored_witness :
  (forall l x, x ∈ sortByAge (Env := exampleEnv) l -> x ∈ l)
  /\ Forall (fun mv => exists t, MeterValue.Timestamp mv = Some t
                                 /\ t < meterUpdatedOf meteredState)
       [batchAt 940 "3000"; batchAt 930 "2000"]
  /\ exists s',
       OnMeterValues (E := exampleEnv)
         (MeterValuesRequest.mk 1 None [batchAt 940 "3000"; batchAt 930 "2000"])
         meteredState = Ok (mkMeterValuesConfirmation, s')
       /\ measurementsOf s' = measurementsOf meteredState
       /\ meterUpdatedOf s' = meterUpdatedOf meteredState.
Proof.
  assert (Hstale : Forall (fun mv => exists t, MeterValue.Timestamp mv = Some t
                                               /\ t < meterUpdatedOf meteredState)
                     [batchAt 940 "3000"; batchAt 930 "2000"]).
  { repeat constructor; eexists; (split; [reflexivity|vm_compute; reflexivity]). }
  split; [exact sortByAge_ascending_elem|]. split; [exact Hstale|].
  destruct (stale_request_is_ignored (E := exampleEnv)
              (MeterValuesRequest.mk 1 None [batchAt 940 "3000"; batchAt 930 "2000"])
              meteredState sortByAge_ascending_elem Hstale)
    as (s' & H & Hm & Hu & _).
  exists s'. split; [exact H|]. split; [exact Hm|exact Hu].
Defined.

Lemma late_meter_values_after_stop_witness :
  (forall l x, x ∈ sortByAge (Env := exampleEnv) l -> x ∈ l)
  /\ Forall (fun mv => exists t, MeterValue.Timestamp mv = Some t
                                 /\ t < now (Env := exampleEnv)
                                         (Connector.clock (conn meteredState)))
       [batchAt 990 "7100"]
  /\ exists s1 s2,
       exec (OnStopTransaction (E := exampleEnv) stopRequest) meteredState = Ok s1
       /\ exec (OnMeterValues (E := exampleEnv)
                  (MeterValuesRequest.mk 1 None [batchAt 990 "7100"])) s1 = Ok s2
       /\ measurementsOf s2 !! "Power.Active.Import"
          = Some (SampledValue.mk "0" "" "" "" "" "" "W").
Proof.
  assert (Hstale : Forall (fun mv => exists t, MeterValue.Timestamp mv = Some t
                                 /\ t < now (Env := exampleEnv)
                                         (Connector.clock (conn meteredState)))
                     [batchAt 990 "7100"]).
  { repeat constructor; eexists; (split; [reflexivity|vm_compute; reflexivity]). }
  split; [exact sortByAge_ascending_elem|]. split; [exact Hstale|].
  destruct (late_meter_values_after_stop (E := exampleEnv) stopRequest
              (MeterValuesRequest.mk 1 None [batchAt 990 "7100"])
              meteredState sortByAge_ascending_elem Hstale)
    as (s1 & s2 & H1 & H2 & Hm & _).
  exists s1, s2. split; [exact H1|]. split; [exact H2|].
  rewrite Hm. vm_compute. reflexivity.
Defined.

Lemma stopped_transaction_is_recovered_witness :
  Connector.status (conn meteredState) = Some (statusAt "Charging" (Some 900))
  /\ exists s1 s2,
       exec (OnStopTransaction (E := exampleEnv) stopRequest) meteredState = Ok s1
       /\ Connector.txnId (conn s1) = 0
       /\ exec (OnMeterValues (E := exampleEnv)
                  (MeterValuesRequest.mk 1 (Some 1700000001) [batchAt 990 "7100"]))
            s1 = Ok s2
       /\ Connector.txnId (conn s2) = 1700000001.
Proof.
  split; [reflexivity|].
  apply (stopped_transaction_is_recovered (E := exampleEnv) stopRequest
           (MeterValuesRequest.mk 1 (Some 1700000001) [batchAt 990 "7100"])
           meteredState 1700000001 (statusAt "Charging" (Some 900)));
    [reflexivity|left; reflexivity|reflexivity|reflexivity].
Defined.

Lemma started_transaction_is_kept_witness :
  0 <= CS.txnId (instance chargingState) < MaxInt64
  /\ exists res s1 s2,
       OnStartTransaction (startRequest "tag") chargingState = Ok (res, s1)
       /\ StartTransactionConfirmation.TransactionId res = 1700000001
       /\ exec (OnMeterValues (E := exampleEnv)
                  (MeterValuesRequest.mk 1 (Some 42) [batchAt 990 "7100"])) s1 = Ok s2
       /\ Connector.txnId (conn s2) = 1700000001
       /\ Connector.idTag (conn s2) = "tag".
Proof.
  assert (Hrange : 0 <= CS.txnId (instance chargingState) < MaxInt64)
    by (unfold MaxInt64; cbn; lia).
  split; [exact Hrange|].
  exact (started_transaction_is_kept (E := exampleEnv) (startRequest "tag")
           (MeterValuesRequest.mk 1 (Some 42) [batchAt 990 "7100"])
           chargingState Hrange).
Defined.

Lemma expired_status_is_ignored_witness :
  Timeout (Env := exampleEnv)
    < time.Sub (now (Env := exampleEnv) (Connector.clock (conn chargingState)))
        (-40000000000)
  /\ exists s',
       OnStatusNotification (E := exampleEnv)
         (statusAt "Available" (Some (-40000000000))) chargingState
         = Ok (mkStatusNotificationConfirmation, s')
       /\ Connector.status (conn s') = Some (statusAt "Charging" (Some 900))
       /\ Connector.statusC (conn s') = Connector.statusC (conn chargingState).
Proof.
  assert (Hexp : Timeout (Env := exampleEnv)
                 < time.Sub (now (Env := exampleEnv)
                               (Connector.clock (conn chargingState)))
                     (-40000000000)) by (vm_compute; reflexivity).
  split; [exact Hexp|].
  exact (expired_status_is_ignored (E := exampleEnv)
           (statusAt "Available" (Some (-40000000000)))
           (statusAt "Charging" (Some 900)) (-40000000000) chargingState
           eq_refl eq_refl Hexp).
Defined.

(** A report that is older than the timeout and newer than the held
    status at once: held 900, reported 901, read at 31 s. *)
Example expired_though_newer :
  exec (OnStatusNotification
          (E := {| now := fun _ => 31000000000; Timeout := 30000000000;
                   isWaitingForAuth := fun _ => false;
                   sortByAge := sortByAge_ascending; TrimSpace := trimAscii |})
          (statusAt "Available" (Some 901)))
    chargingState
  = Ok (mkState (instance chargingState)
          (Connector.set_clock 1 (conn chargingState))).
Proof. reflexivity. Qed.

Lemma duplicate_status_is_ignored_witness :
  now (Env := exampleEnv) (Connector.clock (conn chargingState))
    <= now (Env := exampleEnv) (S (Connector.clock (conn chargingState)))
  /\ exists s1,
       exec (OnStatusNotification (E := exampleEnv) (statusAt "Available" (Some 950)))
         chargingState = Ok s1
       /\ exists s2,
            exec (OnStatusNotification (E := exampleEnv)
                    (statusAt "Available" (Some 950))) s1 = Ok s2
            /\ Connector.status (conn s2) = Connector.status (conn s1)
            /\ Connector.statusC (conn s2) = Connector.statusC (conn s1).
Proof.
  assert (Hclock : now (Env := exampleEnv) (Connector.clock (conn chargingState))
                   <= now (Env := exampleEnv) (S (Connector.clock (conn chargingState))))
    by (vm_compute; discriminate).
  split; [exact Hclock|].
  destruct (exec (OnStatusNotification (E := exampleEnv)
                    (statusAt "Available" (Some 950))) chargingState)
    as [s1|p] eqn:H1.
  - exists s1. split; [reflexivity|].
    exact (duplicate_status_is_ignored (E := exampleEnv)
             (statusAt "Available" (Some 950)) chargingState s1 Hclock H1).
  - exfalso. vm_compute in H1. discriminate H1.
Defined.

Lemma remote_start_only_when_waiting_witness :
  exists s',
    exec (handle (E := exampleEnv)
            (CallStatusNotification (statusAt "Preparing" (Some 950)))) waitingState
      = Ok s'
    /\ Connector.remoteStarts (conn s') = ["tag1"].
Proof.
  destruct (exec (handle (E := exampleEnv)
                    (CallStatusNotification (statusAt "Preparing" (Some 950))))
              waitingState) as [s'|p] eqn:H1.
  - exists s'. split; [reflexivity|].
    rewrite (remote_start_only_when_waiting (E := exampleEnv) _ waitingState s' H1).
    vm_compute in H1. injection H1 as <-. reflexivity.
  - exfalso. vm_compute in H1. discriminate H1.
Defined.

Lemma readings_after_update_witness :
  meter.instances exampleMeters !! "cp1" = Some (meter.mkMeter "cp1" 1%float 230%float)
  /\ exists m',
       meter.instances (meter.Update "cp1" 16%float 230%float exampleMeters) !! "cp1"
         = Some m'
       /\ OCPPDataTransferMeter.CurrentPower m' = (3680%float, None)
       /\ OCPPDataTransferMeter.Currents m' = (16%float, 0%float, 0%float, None).
Proof.
  assert (Hm : meter.instances exampleMeters !! "cp1"
               = Some (meter.mkMeter "cp1" 1%float 230%float))
    by (vm_compute; reflexivity).
  split; [exact Hm|].
  destruct (readings_after_update "cp1" 16%float 230%float exampleMeters _ Hm)
    as (m' & H & _ & Hc & _ & Hp & _).
  exists m'. split; [exact H|]. split; [rewrite Hp; reflexivity|exact Hc].
Defined.

(** The wildcard meter follows every charger: after updates of two
    chargers it holds the values of the last one, and the meter of [cp1]
    those of its own last update. *)
Example wildcard_follows_every_charger :
  let p := updateAll [("cp1", 16%float, 230%float); ("cp2", 6%float, 231%float)]
             exampleMeters in
  meter.instances p !! "" = Some (meter.mkMeter "" 6%float 231%float)
  /\ meter.instances p !! "cp1" = Some (meter.mkMeter "cp1" 16%float 230%float)
  /\ meter.instances p !! "cp2" = None.
Proof. vm_compute. repeat split; reflexivity. Qed.

Lemma new_meter_is_registered_witness :
  meterStore.wf noMeters
  /\ exists m st',
       meterStore.NewOCPPDataTransferMeter string decodeId "cp1" noMeters = (inr m, st')
       /\ meterStore.objects noMeters !! m = None
       /\ meterStore.objects st' !! m = Some (meter.mkMeter "cp1" 0%float 0%float)
       /\ meterStore.view st'
          = <["cp1" := meter.mkMeter "cp1" 0%float 0%float]> (meterStore.view noMeters).
Proof.
  split; [exact noMeters_wf|].
  exact (new_meter_is_registered string decodeId "cp1" noMeters noMeters_wf).
Defined.

Lemma shadowed_meter_is_never_updated_witness :
  meterStore.wf noMeters
  /\ exists m1 st1 m2 st2,
       meterStore.NewOCPPDataTransferMeter string decodeId "cp1" noMeters = (inr m1, st1)
       /\ meterStore.NewOCPPDataTransferMeter string decodeId "cp1" st1 = (inr m2, st2)
       /\ m1 <> m2
       /\ meterStore.instances
            (meterStore.updateAll [("cp1", 16%float, 230%float)] st2) !! "cp1" = Some m2
       /\ meterStore.objects
            (meterStore.updateAll [("cp1", 16%float, 230%float)] st2) !! m1
          = Some (meter.mkMeter "cp1" 0%float 0%float).
Proof.
  split; [exact noMeters_wf|].
  exact (shadowed_meter_is_never_updated string decodeId "cp1" "cp1" "cp1" noMeters
           [("cp1", 16%float, 230%float)] noMeters_wf eq_refl eq_refl).
Defined.

(** Two meters for [cp1], then an update: the second meter has the
    values, the first is still at 0. *)
Example two_meters_one_id :
  meterStore.objects
    (applyOps decodeId
       [OpNew "cp1"; OpNew "cp1"; OpUpdate "cp1" 16%float 230%float] noMeters)
  = [meter.mkMeter "cp1" 0%float 0%float; meter.mkMeter "cp1" 16%float 230%float].
Proof. vm_compute. reflexivity. Qed.

Lemma update_through_pointers_witness :
  meterStore.wf (applyOps decodeId [OpNew "cp1"; OpNew ""] noMeters)
  /\ meterStore.view
       (meterStore.Update "cp1" 16%float 230%float
          (applyOps decodeId [OpNew "cp1"; OpNew ""] noMeters))
     = meter.instances
         (meter.Update "cp1" 16%float 230%float
            (meter.mk
               (meterStore.view (applyOps decodeId [OpNew "cp1"; OpNew ""] noMeters))
               [])).
Proof.
  assert (Hwf : meterStore.wf (applyOps decodeId [OpNew "cp1"; OpNew ""] noMeters)).
  { unfold applyOps. cbn [foldl applyOp].
    apply New_wf, New_wf, noMeters_wf. }
  split; [exact Hwf|].
  exact (update_through_pointers "cp1" 16%float 230%float _ [] Hwf).
Defined.

Lemma unattached_charger_gets_defaults_witness :
  ChargepointByID (ChargePoints := exampleChargePoints) "cp1" (registeredCS, []) = None
  /\ CS_OnStartTransaction (H := exampleHandlers) "cp1" (Some (startRequest "tag"))
       (registeredCS, [])
     = ((Some (StartTransactionConfirmation.mk
                 (Some (IdTagInfo.mk None "" "Accepted")) 0), None),
        (registeredCS, [])).
Proof.
  assert (Hcp : ChargepointByID (ChargePoints := exampleChargePoints) "cp1"
                  (registeredCS, []) = None) by reflexivity.
  split; [exact Hcp|].
  destruct (unattached_charger_gets_defaults (H := exampleHandlers) "cp1"
              (registeredCS, []) None (Some (startRequest "tag")) None Hcp)
    as (_ & Hstart & _).
  exact Hstart.
Defined.

(** With a charge point attached, the stop is accepted although the
    charge point's handler reports an error. *)
Example stop_error_is_not_passed_on :
  CS_OnStopTransaction (H := exampleHandlers) "cp1" (Some stopRequest)
    (registeredCS, ["cp1"])
  = ((Some (StopTransactionConfirmation.mk (Some accepted)), None),
     (registeredCS, ["cp1"])).
Proof. reflexivity. Qed.

Lemma transaction_ids_across_restart_witness :
  exists ids1 ids2,
    issue (E := exampleEnv)
      [(freshConnector 1, startRequest "a"); (freshConnector 2, startRequest "b");
       (freshConnector 1, startRequest "c")]
      (fst (ocpp.Start 1700000000 None)) = Ok ids1
    /\ ocpp.Restart 1700000002 (Some registeredCS) = Some (CS.mk ∅ 1700000002)
    /\ issue (E := exampleEnv) [(freshConnector 1, startRequest "d")]
         (CS.mk ∅ 1700000002) = Ok ids2
    /\ ((forall i j, i ∈ ids1 -> j ∈ ids2 -> i < j)
        <-> 1700000000 + 3 <= 1700000002).
Proof.
  apply (transaction_ids_across_restart (E := exampleEnv) 1700000000 1700000002
           [(freshConnector 1, startRequest "a"); (freshConnector 2, startRequest "b");
            (freshConnector 1, startRequest "c")]
           [(freshConnector 1, startRequest "d")] (Some registeredCS));
    try discriminate; unfold MinInt64, MaxInt64; cbn [length]; lia.
Defined.

(** Three transactions within two seconds, then a restart: the first id
    of the new instance is the last id of the old one. *)
Example restart_repeats_an_id :
  issue (E := exampleEnv)
    [(freshConnector 1, startRequest "a"); (freshConnector 2, startRequest "b");
     (freshConnector 1, startRequest "c")]
    (fst (ocpp.Start 1700000000 None))
  = Ok [1700000001; 1700000002; 1700000003]
  /\ match ocpp.Restart 1700000002 (Some registeredCS) with
     | Some inst =>
         issue (E := exampleEnv) [(freshConnector 1, startRequest "d")] inst
         = Ok [1700000003]
     | None => False
     end.
Proof. split; reflexivity. Qed.
